(** * Sample bar chart visual ([src/barChart.ts])

    A shallow embedding of the view-model transform ([visualTransform]), the
    colour helpers ([shadeColor], [getColumnColorByIndex], ...), the gradient
    registration loop of [update] and the selection synchronisation
    ([syncSelectionState]), followed by the properties the specification
    states about them. *)

From Stdlib Require Import ZArith QArith String Ascii List Lia Bool.
From Stdlib Require Import DecimalString HexadecimalString.
From stdpp Require Import base option list strings gmap.

Local Open Scope Z_scope.

(** ** Exceptions

    The only way the modelled code aborts is a JavaScript [TypeError]: reading a
    property of [undefined] or [null].  [what] records the expression that was
    dereferenced. *)

Inductive JSError : Type :=
| TypeError (what : string).

Inductive result (A : Type) : Type :=
| Return (a : A)
| Throw (e : JSError).

Arguments Return {A} a.
Arguments Throw {A} e.

#[global] Instance result_ret : MRet result := fun A a => Return a.

#[global] Instance result_bind : MBind result := fun A B f m =>
  match m with
  | Return a => f a
  | Throw e => Throw e
  end.

(** [o.f] where [o] may be [undefined]: a [TypeError] when it is. *)
Definition prop {A B : Type} (what : string) (o : option A) (f : A -> B) : result B :=
  match o with
  | Some a => Return (f a)
  | None => Throw (TypeError what)
  end.

Definition returns {A : Type} (r : result A) : bool :=
  match r with
  | Return _ => true
  | Throw _ => false
  end.

(** ** JavaScript string and number primitives used by [shadeColor]

    Strings are sequences of ASCII characters, which is what colour codes are.
    The numbers [shadeColor] computes with are integers or hundredths of
    integers, far below 2^53, so double arithmetic is exact on them; they are
    modelled as [option Z], [None] standing for [NaN]. *)

Definition isStrWhiteSpaceChar (c : ascii) : bool :=
  let n := nat_of_ascii c in
  ((n =? 9) || (n =? 10) || (n =? 11) || (n =? 12) || (n =? 13) || (n =? 32))%nat.

Fixpoint trimStart (s : string) : string :=
  match s with
  | String c s' => if isStrWhiteSpaceChar c then trimStart s' else s
  | EmptyString => s
  end.

(** The value of a character as a digit in radixes up to 36. *)
Definition digitValue (c : ascii) : option Z :=
  let n := Z.of_nat (nat_of_ascii c) in
  if (48 <=? n) && (n <=? 57) then Some (n - 48)
  else if (97 <=? n) && (n <=? 122) then Some (n - 87)
  else if (65 <=? n) && (n <=? 90) then Some (n - 55)
  else None.

(** The longest prefix of radix-[R] digits, as a number; [acc] is [None] while
    no digit has been read. *)
Fixpoint parseDigits (R : Z) (s : string) (acc : option Z) : option Z :=
  match s with
  | String c s' =>
      match digitValue c with
      | Some d =>
          if d <? R
          then parseDigits R s' (Some (from_option (fun a => a * R) 0 acc + d))
          else acc
      | None => acc
      end
  | EmptyString => acc
  end.

Definition stripHexPrefix (s : string) : option string :=
  match s with
  | String "0" (String "x" s') => Some s'
  | String "0" (String "X" s') => Some s'
  | _ => None
  end.

(** [parseInt(s, radix)]; [radix = 0] stands for a missing radix. *)
Definition parseInt (s : string) (radix : Z) : option Z :=
  let '(sign, digits) :=
    match trimStart s with
    | String "-" s' => (-1, s')
    | String "+" s' => (1, s')
    | s' => (1, s')
    end in
  if (radix =? 0) || (radix =? 16) then
    match stripHexPrefix digits with
    | Some digits' => Z.mul sign <$> parseDigits 16 digits' None
    | None => Z.mul sign <$> parseDigits (if radix =? 0 then 10 else 16) digits None
    end
  else if (radix <? 2) || (36 <? radix) then None
  else Z.mul sign <$> parseDigits radix digits None.

(** [s.substring(start, end)] for [start <= end]. *)
Definition substring_js (start end_ : nat) (s : string) : string :=
  String.substring start (end_ - start) s.

(** [s.substr(start)]. *)
Definition substr_js (start : nat) (s : string) : string :=
  String.substring start (String.length s - start) s.

(** [`${n / 100}`] for an integer [n]: the decimal text of a number of
    hundredths (sign, integer digits, and the fraction without trailing
    zeros), which is what [ToString] gives below 10^21. *)
Definition template_hundredths (n : Z) : string :=
  let a := Z.abs n in
  let q := a / 100 in
  let r := a mod 100 in
  let digits z := DecimalString.NilZero.string_of_int (Z.to_int z) in
  let frac :=
    if r =? 0 then EmptyString
    else if r mod 10 =? 0 then "." +:+ digits (r / 10)
    else "." +:+ digits (r / 10) +:+ digits (r mod 10) in
  (if n <? 0 then "-" else EmptyString) +:+ digits q +:+ frac.

(** [`${x * k / 100}`] for a possibly-[NaN] integer [x]. *)
Definition template_scaled (x : option Z) (k : Z) : string :=
  match x with
  | Some x => template_hundredths (x * k)
  | None => "NaN"
  end.

(** [x < y] on numbers: false when [x] is [NaN]. *)
Definition js_lt (x : option Z) (y : Z) : bool :=
  match x with
  | Some x => x <? y
  | None => false
  end.

(** [n.toString(16)] on an integer. *)
Definition toString16 (x : option Z) : string :=
  match x with
  | Some n => HexadecimalString.NilZero.string_of_int (Z.to_hex_int n)
  | None => "NaN"
  end.

(** ** [shadeColor] (lines 153-170) *)

Definition shadeColor (color : string) (percent : Z) : string :=
  let R := parseInt (substring_js 1 3 color) 16 in
  let G := parseInt (substring_js 3 5 color) 16 in
  let B := parseInt (substring_js 5 7 color) 16 in

  let R := parseInt (template_scaled R (100 + percent)) 0 in
  let G := parseInt (template_scaled G (100 + percent)) 0 in
  let B := parseInt (template_scaled B (100 + percent)) 0 in

  let R := if js_lt R 255 then R else Some 255 in
  let G := if js_lt G 255 then G else Some 255 in
  let B := if js_lt B 255 then B else Some 255 in

  let RR := if (String.length (toString16 R) =? 1)%nat then "0" +:+ toString16 R else toString16 R in
  let GG := if (String.length (toString16 G) =? 1)%nat then "0" +:+ toString16 G else toString16 G in
  let BB := if (String.length (toString16 B) =? 1)%nat then "0" +:+ toString16 B else toString16 B in
  "#" +:+ RR +:+ GG +:+ BB.

Local Close Scope Z_scope.

(** ** The host API

    Numbers that the visual only carries through (column values, the reported
    maximum, opacities, widths) are IEEE doubles in the program.  The visual
    does no arithmetic on them in the code modelled here, so their type, the
    number a literal denotes and their [ToString] are left to the host
    interface, as are dates and selection ids ([ISelectionId.includes]). *)

Class PowerBIApi : Type := {
  number : Type;
  date : Type;
  ISelectionId : Type;
  number_lit : Q -> number;
  number_toString : number -> string;
  date_toString : date -> string;
  includes : ISelectionId -> ISelectionId -> bool;
}.

Section Model.
Context `{api : PowerBIApi}.

(** [PrimitiveValue = string | number | boolean | Date], and [null]. *)
Inductive PrimitiveValue : Type :=
| PString (s : string)
| PNumber (n : number)
| PBool (b : bool)
| PDate (d : date)
| PNull.

(** [`${v}`]: template coercion of a value that may be [undefined]. *)
Definition template (v : option PrimitiveValue) : string :=
  match v with
  | None => "undefined"
  | Some PNull => "null"
  | Some (PString s) => s
  | Some (PNumber n) => number_toString n
  | Some (PBool b) => if b then "true" else "false"
  | Some (PDate d) => date_toString d
  end.

(** [Fill { solid?: { color?: string } }]. *)
Record SolidFill : Type := { fill_color : option string }.
Record Fill : Type := { solid : option SolidFill }.

Inductive DataViewPropertyValue : Type :=
| PrimV (p : PrimitiveValue)
| FillV (f : Fill).

(** [(<Fill>v).solid.color]: a [TypeError] unless [v] is a fill with a
    [solid] member. *)
Definition solid_color (v : DataViewPropertyValue) : result (option string) :=
  match v with
  | FillV f => prop "solid.color" (solid f) fill_color
  | PrimV _ => Throw (TypeError "solid.color")
  end.

(** *** The query result ([DataView]) *)

Record DataViewMetadataColumn : Type := { displayName : string }.

Record DataViewCategoryColumn : Type := {
  cat_source : option DataViewMetadataColumn;
  cat_values : list PrimitiveValue;
  cat_objects : option (list (option (gmap string (gmap string DataViewPropertyValue))));
}.

Record DataViewValueColumn : Type := {
  val_values : list PrimitiveValue;
  val_maxLocal : option PrimitiveValue;
}.

Record DataViewCategorical : Type := {
  categories : option (list DataViewCategoryColumn);
  values : option (list DataViewValueColumn);
}.

Record DataViewMetadata : Type := {
  objects : option (gmap string (gmap string DataViewPropertyValue));
}.

Record DataView : Type := {
  metadata : DataViewMetadata;
  categorical : option DataViewCategorical;
}.

Record VisualUpdateOptions : Type := {
  dataViews : option (list DataView);
}.

(** *** The host services *)

Record IColorInfo : Type := { color_value : string }.

(** The palette is the host's; it is read as a lookup from a key to a colour. *)
Record ISandboxExtendedColorPalette : Type := {
  isHighContrast : bool;
  foreground : IColorInfo;
  background : IColorInfo;
  getColor : string -> IColorInfo;
}.

(** [createSelectionId category i] is
    [host.createSelectionIdBuilder().withCategory(category, i).createSelectionId()]. *)
Record IVisualHost : Type := {
  colorPalette : ISandboxExtendedColorPalette;
  createSelectionId : DataViewCategoryColumn -> nat -> ISelectionId;
}.

(** *** The view model (lines 13-59); [None] in a colour is [null] or
    [undefined], [None] in [value] and [dataMax] is [undefined], and the empty
    object [{}] has neither member of [BarChartSettings]. *)

Record BarChartDataPoint : Type := {
  value : option PrimitiveValue;
  category : string;
  color : option string;
  endColor : option string;
  strokeColor : option string;
  strokeWidth : number;
  selectionId : ISelectionId;
}.

Record EnableAxis : Type := {
  show : DataViewPropertyValue;
  fill : option string;
}.

Record GeneralView : Type := {
  opacity : DataViewPropertyValue;
  showHelpLink : DataViewPropertyValue;
  helpLinkColor : option string;
}.

Record BarChartSettings : Type := {
  enableAxis : option EnableAxis;
  generalView : option GeneralView;
}.

Record BarChartViewModel : Type := {
  dataPoints : list BarChartDataPoint;
  dataMax : option PrimitiveValue;
  settings : BarChartSettings;
}.

(** ** Property lookup helpers (objectEnumerationUtility.ts) *)

(** Modelled from the spec: [getValue] of objectEnumerationUtility.ts, which is
    not among the sources.  The specification resolves settings "from persisted
    object properties (external store) overlaid on defaults": the persisted
    property when there is one, the default otherwise. *)
Definition getValue (objects : option (gmap string (gmap string DataViewPropertyValue)))
    (objectName propertyName : string) (defaultValue : DataViewPropertyValue)
  : DataViewPropertyValue :=
  match objects with
  | Some objects =>
      match objects !! objectName with
      | Some object =>
          match object !! propertyName with
          | Some property => property
          | None => defaultValue
          end
      | None => defaultValue
      end
  | None => defaultValue
  end.

(** Modelled from the spec: [getCategoricalObjectValue] of
    objectEnumerationUtility.ts, which is not among the sources.  "Per-category
    persisted overrides (fill/endFill) take precedence over computed colors
    when present": the property persisted for the category at [index] when
    there is one, the default otherwise. *)
Definition getCategoricalObjectValue (category : DataViewCategoryColumn) (index : nat)
    (objectName propertyName : string) (defaultValue : DataViewPropertyValue)
  : DataViewPropertyValue :=
  match cat_objects category with
  | Some categoryObjects => getValue (mjoin (categoryObjects !! index)) objectName propertyName defaultValue
  | None => defaultValue
  end.

(** ** Colour helpers (lines 172-231) *)

(** The [console.log] of line 184 has no effect on the result. *)
Definition getColumnColorByIndex (category : DataViewCategoryColumn) (index : nat)
    (colorPalette : ISandboxExtendedColorPalette) (isEndColor : bool)
  : result (option string) :=
  if isHighContrast colorPalette then
    Return (Some (color_value (background colorPalette)))
  else
    let categoryColor := color_value (getColor colorPalette (template (cat_values category !! index))) in
    let categoryEndColor := shadeColor categoryColor (-40) in
    let defaultColor :=
      {| solid := Some {| fill_color := Some (if isEndColor then categoryEndColor else categoryColor) |} |} in
    solid_color
      (getCategoricalObjectValue category index "colorSelector"
         (if isEndColor then "endFill" else "fill") (FillV defaultColor)).

Definition getColumnStrokeColor (colorPalette : ISandboxExtendedColorPalette) : option string :=
  if isHighContrast colorPalette
  then Some (color_value (foreground colorPalette))
  else None.

Definition getColumnStrokeWidth (isHighContrast : bool) : number :=
  if isHighContrast
  then number_lit 2
  else number_lit 0.

Definition getAxisTextFillColor (objects : option (gmap string (gmap string DataViewPropertyValue)))
    (colorPalette : ISandboxExtendedColorPalette) (defaultColor : string)
  : result (option string) :=
  if isHighContrast colorPalette then
    Return (Some (color_value (foreground colorPalette)))
  else
    solid_color
      (getValue objects "enableAxis" "fill"
         (FillV {| solid := Some {| fill_color := Some defaultColor |} |})).

(** ** [visualTransform] (lines 70-151) *)

Definition defaultAxisFill : string := "#000000".

Definition defaultEnableAxis : EnableAxis :=
  {| show := PrimV (PBool false); fill := Some defaultAxisFill |}.

Definition defaultGeneralView : GeneralView :=
  {| opacity := PrimV (PNumber (number_lit 100));
     showHelpLink := PrimV (PBool false);
     helpLinkColor := Some "#80B0E0" |}.

Definition defaultSettings : BarChartSettings :=
  {| enableAxis := Some defaultEnableAxis; generalView := Some defaultGeneralView |}.

(** [<BarChartSettings>{}] *)
Definition emptySettings : BarChartSettings :=
  {| enableAxis := None; generalView := None |}.

(** The condition of the [if] at lines 89-95, operand by operand.  Arrays are
    truthy even when empty, and [categories[0].source] dereferences
    [categories[0]] without a test of its own. *)
Definition insufficientData (dataViews : option (list DataView)) : result bool :=
  match dataViews with
  | None => Return true
  | Some dataViews =>
  match dataViews !! 0%nat with
  | None => Return true
  | Some dataView =>
  match categorical dataView with
  | None => Return true
  | Some categorical =>
  match categories categorical with
  | None => Return true
  | Some categories =>
      source ← prop "dataViews[0].categorical.categories[0].source" (categories !! 0%nat) cat_source;
      match source with
      | None => Return true
      | Some _ =>
      match values categorical with
      | None => Return true
      | Some _ => Return false
      end end end end end end.

(** [for (let i = start; i < start + n; i++) { arr.push(body(i)) }] *)
Fixpoint for_push {A : Type} (body : nat -> result A) (n i : nat) (arr : list A)
  : result (list A) :=
  match n with
  | O => Return arr
  | S n' => x ← body i; for_push body n' (S i) (arr ++ [x])
  end.

(** The body of the loop of lines 125-142 at index [i]: the data point that is
    pushed.  [dataValues] is [dataValue.values]. *)
Definition dataPointAt (host : IVisualHost) (category : DataViewCategoryColumn)
    (dataValues : list PrimitiveValue) (strokeColor : option string) (strokeWidth : number)
    (i : nat) : result BarChartDataPoint :=
  let colorPalette := colorPalette host in
  color ← getColumnColorByIndex category i colorPalette false;
  endColor ← getColumnColorByIndex category i colorPalette true;
  let selectionId := createSelectionId host category i in
  mret {| color := color;
          endColor := endColor;
          strokeColor := strokeColor;
          strokeWidth := strokeWidth;
          selectionId := selectionId;
          value := dataValues !! i;
          category := template (cat_values category !! i) |}.

(** Lines 103-150, once [category] and [dataValue] are bound; [dataValue] is
    [categorical.values[0]], which is [undefined] for an empty array. *)
Definition transformColumns (host : IVisualHost) (dataView : DataView)
    (category : DataViewCategoryColumn) (dataValue : option DataViewValueColumn)
  : result BarChartViewModel :=
  let colorPalette := colorPalette host in
  let objects := objects (metadata dataView) in

  let strokeColor := getColumnStrokeColor colorPalette in

  axisFill ← getAxisTextFillColor objects colorPalette defaultAxisFill;
  let barChartSettings :=
    {| enableAxis := Some
         {| show := getValue objects "enableAxis" "show" (show defaultEnableAxis);
            fill := axisFill |};
       generalView := Some
         {| opacity := getValue objects "generalView" "opacity" (opacity defaultGeneralView);
            showHelpLink := getValue objects "generalView" "showHelpLink" (showHelpLink defaultGeneralView);
            helpLinkColor := strokeColor |} |} in

  let strokeWidth := getColumnStrokeWidth (isHighContrast colorPalette) in

  dataValues ← prop "dataValue.values" dataValue val_values;
  let len := Nat.max (length (cat_values category)) (length dataValues) in
  barChartDataPoints ←
    for_push (dataPointAt host category dataValues strokeColor strokeWidth) len 0%nat [];

  dataMax ← prop "dataValue.maxLocal" dataValue val_maxLocal;

  Return {| dataPoints := barChartDataPoints;
            dataMax := dataMax;
            settings := barChartSettings |}.

Definition visualTransform (options : VisualUpdateOptions) (host : IVisualHost)
  : result BarChartViewModel :=
  let dataViews := dataViews options in
  let viewModel :=
    {| dataPoints := []; dataMax := Some (PNumber (number_lit 0)); settings := emptySettings |} in

  insufficient ← insufficientData dataViews;
  if insufficient : bool then Return viewModel else

  dataView ← prop "dataViews[0]" (dataViews ≫= (.!! 0%nat)) id;
  categorical ← prop "dataViews[0].categorical" (categorical dataView) id;
  category ← prop "categorical.categories[0]" (categories categorical ≫= (.!! 0%nat)) id;
  let dataValue := values categorical ≫= (.!! 0%nat) in
  transformColumns host dataView category dataValue.

(** ** Parts of [BarChart.update] (lines 312-457) *)

(** [BarChart.Config] *)
Definition solidOpacity : number := number_lit 1.
Definition transparentOpacity : number := number_lit 0.4.

(** Lines 313-328: the first use [update] makes of the settings is
    [settings.enableAxis.show]. *)
Definition update_enableAxis_show (options : VisualUpdateOptions) (host : IVisualHost)
  : result DataViewPropertyValue :=
  viewModel ← visualTransform options host;
  let settings := settings viewModel in
  prop "settings.enableAxis.show" (enableAxis settings) show.

(** *** Gradient definitions of the drawing surface (lines 371-390)

    Only the [linearGradient] elements carry an [id]; the surface is read as
    the list of those it holds, in document order. *)

Record GradientStop : Type := {
  attr_offset : string;
  attr_stop_color : string;
  attr_stop_opacity : number;
}.

Record LinearGradient : Type := {
  attr_id : string;
  attr_x1 : string;
  attr_y1 : string;
  attr_x2 : string;
  attr_y2 : string;
  stops : list GradientStop;
}.

Definition gradientId (color endColor : string) : string :=
  "gradient_" +:+ substr_js 1 color +:+ "_" +:+ substr_js 1 endColor.

(** [svg.select(`#${gradientId}`)]: the first element with that id. *)
Definition select_id (svg : list LinearGradient) (i : string) : option LinearGradient :=
  List.find (fun g => String.eqb (attr_id g) i) svg.

(** The body of the [forEach] for a data point whose colours are strings. *)
Definition ensureGradient (svg : list LinearGradient) (color endColor : string)
  : list LinearGradient :=
  let gradientId := gradientId color endColor in
  match select_id svg gradientId with
  | None =>
      svg ++ [ {| attr_id := gradientId;
                  attr_x1 := "0%"; attr_y1 := "0%";
                  attr_x2 := "0%"; attr_y2 := "100%";
                  stops :=
                    [ {| attr_offset := "0%"; attr_stop_color := color;
                         attr_stop_opacity := number_lit 1 |};
                      {| attr_offset := "100%"; attr_stop_color := endColor;
                         attr_stop_opacity := number_lit 1 |} ] |} ]
  | Some _ => svg
  end.

(** [this.barDataPoints.forEach(...)]: [dataPoint.color.substr(1)] is a
    [TypeError] on a colour that is not there. *)
Fixpoint createGradients (svg : list LinearGradient) (barDataPoints : list BarChartDataPoint)
  : result (list LinearGradient) :=
  match barDataPoints with
  | [] => Return svg
  | dataPoint :: rest =>
      c ← prop "dataPoint.color.substr" (color dataPoint) id;
      e ← prop "dataPoint.endColor.substr" (endColor dataPoint) id;
      createGradients (ensureGradient svg c e) rest
  end.

(** *** Rendered bars and their inline opacity styles

    A rendered bar is a [rect] with its bound datum; [None] is a style
    property that is not set ([style(name, null)] removes it). *)

Record BarElement : Type := {
  datum : BarChartDataPoint;
  fill_opacity : option number;
  stroke_opacity : option number;
}.

(** [.style({ "fill-opacity": v, "stroke-opacity": v })] on one element. *)
Definition style_opacity (v : option number) (e : BarElement) : BarElement :=
  {| datum := datum e; fill_opacity := v; stroke_opacity := v |}.

(** Lines 392-405: every bar gets the resting opacity
    [viewModel.settings.generalView.opacity / 100] as its inline style. *)
Definition applyRestingOpacity (opacity : number) (selection : list BarElement)
  : list BarElement :=
  map (style_opacity (Some opacity)) selection.

(** ** Selection synchronisation (lines 459-500) *)

Definition isSelectionIdInArray (selectionIds : option (list ISelectionId))
    (selectionId : option ISelectionId) : bool :=
  match selectionIds, selectionId with
  | Some selectionIds, Some selectionId =>
      existsb (fun currentSelectionId => includes currentSelectionId selectionId) selectionIds
  | _, _ => false
  end.

(** The function returns nothing; its effect is the new state of the
    selection's elements. *)
Definition syncSelectionState (selection : option (list BarElement))
    (selectionIds : option (list ISelectionId)) : option (list BarElement) :=
  match selection, selectionIds with
  | Some selection, Some selectionIds =>
      if (length selectionIds =? 0)%nat then
        Some (map (style_opacity None) selection)
      else
        Some (map (fun element =>
                let barDataPoint := datum element in
                let isSelected :=
                  isSelectionIdInArray (Some selectionIds) (Some (selectionId barDataPoint)) in
                let opacity := if isSelected then solidOpacity else transparentOpacity in
                style_opacity (Some opacity) element) selection)
  | _, _ => selection
  end.

(** ** Vocabulary of the properties *)

(** The raw result has a category column with a source and a value column:
    the data view, the first category column and the first value column. *)
Definition chartColumns (options : VisualUpdateOptions)
  : option (DataView * DataViewCategoryColumn * DataViewValueColumn) :=
  dataViews ← dataViews options;
  dataView ← dataViews !! 0%nat;
  categorical ← categorical dataView;
  categories ← categories categorical;
  category ← categories !! 0%nat;
  _ ← cat_source category;
  values ← values categorical;
  dataValue ← values !! 0%nat;
  Some (dataView, category, dataValue).

(** A persisted colour property is usable when it is a fill with a [solid]
    member, which is what the format pane stores. *)
Definition isSolidFill (v : DataViewPropertyValue) : bool :=
  match v with
  | FillV f => bool_decide (is_Some (solid f))
  | PrimV _ => false
  end.

Definition anySolidFill : DataViewPropertyValue :=
  FillV {| solid := Some {| fill_color := None |} |}.

(** The persisted axis fill and the persisted colours of the first [len]
    categories, where there are any, are usable. *)
Definition persistedFillsOk (dataView : DataView) (category : DataViewCategoryColumn)
    (len : nat) : bool :=
  isSolidFill (getValue (objects (metadata dataView)) "enableAxis" "fill" anySolidFill)
  && forallb (fun i =>
       isSolidFill (getCategoricalObjectValue category i "colorSelector" "fill" anySolidFill)
       && isSolidFill (getCategoricalObjectValue category i "colorSelector" "endFill" anySolidFill))
       (seq 0 len).

(** ** Further parts of the visual *)

(** *** The fields [update] assigns first (lines 313-315)

    [this.barChartSettings] and [this.barDataPoints] are [undefined] until the
    first update; they are assigned before anything else in [update] runs, so
    they keep the new values even when a later statement of [update] throws. *)

Record BarChartFields : Type := {
  barChartSettings : option BarChartSettings;
  barDataPoints : option (list BarChartDataPoint);
}.

Definition update_assign (options : VisualUpdateOptions) (host : IVisualHost)
  : result BarChartFields :=
  viewModel ← visualTransform options host;
  Return {| barChartSettings := Some (settings viewModel);
            barDataPoints := Some (dataPoints viewModel) |}.

(** *** The fill reference of a bar (line 402) *)

Definition barFill (dataPoint : BarChartDataPoint) : result string :=
  c ← prop "dataPoint.color.substr" (color dataPoint) id;
  e ← prop "dataPoint.endColor.substr" (endColor dataPoint) id;
  Return ("url(#gradient_" +:+ substr_js 1 c +:+ "_" +:+ substr_js 1 e +:+ ")").

(** *** [getTooltipData] (lines 577-585) *)

(** [v.toString()]: a [TypeError] on [undefined] and on [null]. *)
Definition toString (v : option PrimitiveValue) : result string :=
  match v with
  | None => Throw (TypeError "value.value.toString")
  | Some PNull => Throw (TypeError "value.value.toString")
  | Some p => Return (template (Some p))
  end.

Record VisualTooltipDataItem : Type := {
  tooltip_displayName : string;
  tooltip_value : string;
  tooltip_color : option string;
  tooltip_header : option string;
}.

(** [language] is the result of [getLocalizedString(this.locale,
    "LanguageKey")], whose code is not among the sources; [language && s] is
    [language] itself when it is [undefined] or empty. *)
Definition getTooltipData (language : option string) (dataPoint : BarChartDataPoint)
  : result (list VisualTooltipDataItem) :=
  text ← toString (value dataPoint);
  Return [ {| tooltip_displayName := category dataPoint;
              tooltip_value := text;
              tooltip_color := color dataPoint;
              tooltip_header :=
                (fun l => if String.eqb l EmptyString then l
                          else "displayed language " +:+ l) <$> language |} ].

(** *** [enumerateObjectInstances] (lines 508-565) *)

(** The host's selector of a selection id, [selectionId.getSelector()]. *)
Inductive Selector : Type :=
| getSelector (selectionId : ISelectionId).

(** A property of an enumerated instance: a settings value as it is, a plain
    colour string (or [undefined]), or a colour wrapped as
    [{ solid: { color } }]. *)
Inductive InstanceValue : Type :=
| IVProperty (v : DataViewPropertyValue)
| IVColor (c : option string)
| IVSolid (c : option string).

Record NumberRange : Type := { range_min : number; range_max : number }.

Record VisualObjectInstance : Type := {
  inst_objectName : string;
  inst_displayName : option string;
  inst_properties : list (string * InstanceValue);
  inst_validValues : list (string * NumberRange);
  inst_selector : option Selector;
}.

Definition enumerateObjectInstances (this : BarChartFields) (objectName : string)
  : result (list VisualObjectInstance) :=
  if String.eqb objectName "enableAxis" then
    settings ← prop "this.barChartSettings.enableAxis" (barChartSettings this) id;
    axis ← prop "this.barChartSettings.enableAxis.show" (enableAxis settings) id;
    Return [ {| inst_objectName := objectName;
                inst_displayName := None;
                inst_properties := [ ("show", IVProperty (show axis)); ("fill", IVColor (fill axis)) ];
                inst_validValues := [];
                inst_selector := None |} ]
  else if String.eqb objectName "colorSelector" then
    barDataPoints ← prop "this.barDataPoints" (barDataPoints this) id;
    Return (map (fun barDataPoint =>
              {| inst_objectName := objectName;
                 inst_displayName := Some (category barDataPoint);
                 inst_properties := [ ("fill", IVSolid (color barDataPoint));
                                      ("endFill", IVSolid (endColor barDataPoint)) ];
                 inst_validValues := [];
                 inst_selector := Some (getSelector (selectionId barDataPoint)) |})
            barDataPoints)
  else if String.eqb objectName "generalView" then
    settings ← prop "this.barChartSettings.generalView" (barChartSettings this) id;
    view ← prop "this.barChartSettings.generalView.opacity" (generalView settings) id;
    Return [ {| inst_objectName := objectName;
                inst_displayName := None;
                inst_properties := [ ("opacity", IVProperty (opacity view));
                                     ("showHelpLink", IVProperty (showHelpLink view)) ];
                inst_validValues :=
                  [ ("opacity", {| range_min := number_lit 10; range_max := number_lit 100 |}) ];
                inst_selector := None |} ]
  else Return [].

(** *** [HandleLandingPage] (lines 598-614)

    The two flags are [undefined], hence false, in a new visual;
    [landingPages] counts the landing page elements attached to the visual's
    element ([appendChild] adds one, [remove] detaches it). *)

Record LandingPageState : Type := {
  isLandingPageOn : bool;
  LandingPageRemoved : bool;
  landingPages : nat;
}.

Definition initialLandingPageState : LandingPageState :=
  {| isLandingPageOn := false; LandingPageRemoved := false; landingPages := 0 |}.

Definition HandleLandingPage (options : VisualUpdateOptions) (this : LandingPageState)
  : LandingPageState :=
  if match dataViews options with
     | None => true
     | Some dataViews => (length dataViews =? 0)%nat
     end
  then
    if negb (isLandingPageOn this) then
      {| isLandingPageOn := true;
         LandingPageRemoved := LandingPageRemoved this;
         landingPages := S (landingPages this) |}
    else this
  else
    if isLandingPageOn this && negb (LandingPageRemoved this) then
      {| isLandingPageOn := isLandingPageOn this;
         LandingPageRemoved := true;
         landingPages := Nat.pred (landingPages this) |}
    else this.

(** The state after a sequence of updates, each calling [HandleLandingPage]. *)
Definition handleLandingPages (updates : list VisualUpdateOptions) (this : LandingPageState)
  : LandingPageState :=
  fold_left (fun st options => HandleLandingPage options st) updates this.

End Model.

(** *** Hex colours *)

Local Open Scope Z_scope.

Definition isHexDigit (c : ascii) : bool :=
  match digitValue c with
  | Some d => d <? 16
  | None => false
  end.

(** A valid [#RRGGBB] colour. *)
Definition isHexColor (s : string) : bool :=
  match s with
  | String "#" digits =>
      (String.length digits =? 6)%nat && forallb isHexDigit (list_ascii_of_string digits)
  | _ => false
  end.

Definition hexValue (c : ascii) : Z := default 0 (digitValue c).

(** The value of the [k]-th channel (0 red, 1 green, 2 blue) of a colour. *)
Definition channel (s : string) (k : nat) : Z :=
  16 * hexValue (default "0"%char (String.get (1 + 2 * k) s))
  + hexValue (default "0"%char (String.get (2 + 2 * k) s)).

Definition hexDigit (v : Z) : ascii :=
  default "0"%char (String.get (Z.to_nat v) "0123456789abcdef").

(** A channel value as exactly two (lower-case) hex digits. *)
Definition hex2 (v : Z) : string :=
  String (hexDigit (v / 16)) (String (hexDigit (v mod 16)) EmptyString).

Definition clamp (lo hi x : Z) : Z := Z.max lo (Z.min hi x).

(** [round(n / d)] to the nearest integer, halves up ([Math.round]). *)
Definition round_div (n d : Z) : Z := (2 * n + d) / (2 * d).

(** The channel formula in the specification's words:
    [clamp(round(channel * (100 - 40) / 100), 0, 255)]. *)
Definition shade_channel_rounded (c : Z) : Z :=
  clamp 0 255 (round_div (c * (100 - 40)) 100).

(** The same with the quotient truncated instead of rounded. *)
Definition shade_channel_truncated (c : Z) : Z :=
  clamp 0 255 (c * (100 - 40) / 100).

Definition assemble (f : Z -> Z) (color : string) : string :=
  "#" +:+ hex2 (f (channel color 0)) +:+ hex2 (f (channel color 1)) +:+ hex2 (f (channel color 2)).

(** What [shadeColor] does to one channel, given its two digits: lines 154,
    158, 162 and 166 for red, and the same for green and blue. *)
Definition shadeChannelText (digits : string) (percent : Z) : string :=
  let R := parseInt digits 16 in
  let R := parseInt (template_scaled R (100 + percent)) 0 in
  let R := if js_lt R 255 then R else Some 255 in
  if (String.length (toString16 R) =? 1)%nat then "0" +:+ toString16 R else toString16 R.

Definition hexDigitChars : list ascii :=
  list_ascii_of_string "0123456789abcdefABCDEF".

(** The facts about one channel with digits [h] and [l], as a test that can
    be run on every pair of hex digits. *)
Definition channel_ok (h l : ascii) : bool :=
  let v := 16 * hexValue h + hexValue l in
  let t := shade_channel_truncated v in
  String.eqb (shadeChannelText (String h (String l EmptyString)) (-40)) (hex2 t)
  && (t <=? v)
  && isHexDigit (hexDigit (t / 16))
  && isHexDigit (hexDigit (t mod 16))
  && (16 * hexValue (hexDigit (t / 16)) + hexValue (hexDigit (t mod 16)) =? t).

(** The channel formula for a percentage [p]: the scaled channel, truncated,
    and capped at 255 by the test of lines 162-164. *)
Definition shade_channel (p c : Z) : Z := Z.min 255 (c * (100 + p) / 100).

(** The decimal text of an integer, as [template_hundredths] writes it. *)
Definition decimalText (z : Z) : string :=
  DecimalString.NilZero.string_of_int (Z.to_int z).

(** The integers from 0 to [n - 1]. *)
Definition zrange (n : nat) : list Z := map Z.of_nat (seq 0 n).

(** [parseInt] of two hex digits is their value, a number from 0 to 255. *)
Definition parse_ok (h l : ascii) : bool :=
  match parseInt (String h (String l EmptyString)) 16 with
  | Some v => (v =? 16 * hexValue h + hexValue l) && (0 <=? v) && (v <=? 255)
  | None => false
  end.

(** A channel value written by lines 166-168 is its two hex digits. *)
Definition hex_ok (t : Z) : bool :=
  let text := toString16 (Some t) in
  String.eqb (if (String.length text =? 1)%nat then "0" +:+ text else text) (hex2 t)
  && isHexDigit (hexDigit (t / 16))
  && isHexDigit (hexDigit (t mod 16))
  && (16 * hexValue (hexDigit (t / 16)) + hexValue (hexDigit (t mod 16)) =? t).

Local Close Scope Z_scope.

(** *** A sample host, used to run the model on concrete inputs

    Numbers are rationals with at most two decimals, dates are their text, and
    a selection id is the index of the category row it was built from. *)

Definition sample_api : PowerBIApi :=
  {| number := Q;
     date := string;
     ISelectionId := nat;
     number_lit := fun q => q;
     number_toString := fun q => template_hundredths (Qnum (q * 100) / Zpos (Qden (q * 100)));
     date_toString := fun d => d;
     includes := Nat.eqb |}.

Section Samples.
#[local] Existing Instance sample_api.

Definition sample_palette (highContrast : bool) : ISandboxExtendedColorPalette :=
  {| isHighContrast := highContrast;
     foreground := {| color_value := "#ffffff" |};
     background := {| color_value := "#000000" |};
     getColor := fun key =>
       {| color_value :=
            if String.eqb key "A" then "#01b8aa"
            else if String.eqb key "B" then "#fd625e"
            else if String.eqb key "undefined" then "#374649"
            else "#f2c80f" |} |}.

Definition sample_host (highContrast : bool) : IVisualHost :=
  {| colorPalette := sample_palette highContrast;
     createSelectionId := fun _ i => i |}.

Definition sample_category (vs : list PrimitiveValue) : DataViewCategoryColumn :=
  {| cat_source := Some {| displayName := "Category" |};
     cat_values := vs;
     cat_objects := None |}.

Definition sample_dataView (cats : list DataViewCategoryColumn)
    (vals : list DataViewValueColumn) : DataView :=
  {| metadata := {| objects := None |};
     categorical := Some {| categories := Some cats; values := Some vals |} |}.

(** Category column ["A","B"], value column [3,7], reported maximum 10. *)
Definition sample_category_AB : DataViewCategoryColumn :=
  sample_category [PString "A"; PString "B"].

Definition sample_values_37 : DataViewValueColumn :=
  {| val_values := [PNumber 3%Q; PNumber 7%Q]; val_maxLocal := Some (PNumber 10%Q) |}.

Definition sample_dataView_AB : DataView :=
  sample_dataView [sample_category_AB] [sample_values_37].

Definition sample_options : VisualUpdateOptions :=
  {| dataViews := Some [sample_dataView_AB] |}.

(** Three categories, two values: the category column is the longer one. *)
Definition sample_category_ABC : DataViewCategoryColumn :=
  sample_category [PString "A"; PString "B"; PString "C"].

Definition sample_dataView_long_categories : DataView :=
  sample_dataView [sample_category_ABC] [sample_values_37].

Definition sample_options_long_categories : VisualUpdateOptions :=
  {| dataViews := Some [sample_dataView_long_categories] |}.

(** One category, two values: the value column is the longer one. *)
Definition sample_category_A : DataViewCategoryColumn :=
  sample_category [PString "A"].

Definition sample_dataView_short_categories : DataView :=
  sample_dataView [sample_category_A] [sample_values_37].

Definition sample_options_short_categories : VisualUpdateOptions :=
  {| dataViews := Some [sample_dataView_short_categories] |}.

(** The settings the transform resolves for the samples above. *)
Definition sample_settings : BarChartSettings :=
  {| enableAxis := Some {| show := PrimV (PBool false); fill := Some "#000000" |};
     generalView := Some
       {| opacity := PrimV (PNumber 100%Q);
          showHelpLink := PrimV (PBool false);
          helpLinkColor := None |} |}.

Definition sample_point_A : BarChartDataPoint :=
  {| value := Some (PNumber 3%Q); category := "A";
     color := Some "#01b8aa"; endColor := Some "#006e66";
     strokeColor := None; strokeWidth := 0%Q; selectionId := 0 |}.

Definition sample_point_B : BarChartDataPoint :=
  {| value := Some (PNumber 7%Q); category := "B";
     color := Some "#fd625e"; endColor := Some "#973a38";
     strokeColor := None; strokeWidth := 0%Q; selectionId := 1 |}.

(** The point built at index 1 when the category column has one entry. *)
Definition sample_point_undefined : BarChartDataPoint :=
  {| value := Some (PNumber 7%Q); category := "undefined";
     color := Some "#374649"; endColor := Some "#212a2b";
     strokeColor := None; strokeWidth := 0%Q; selectionId := 1 |}.

Definition sample_viewModel : BarChartViewModel :=
  {| dataPoints := [sample_point_A; sample_point_B];
     dataMax := Some (PNumber 10%Q);
     settings := sample_settings |}.

Definition sample_viewModel_short_categories : BarChartViewModel :=
  {| dataPoints := [sample_point_A; sample_point_undefined];
     dataMax := Some (PNumber 10%Q);
     settings := sample_settings |}.

(** A rendered bar for the data point of category row [i], with no inline
    opacity yet. *)
Definition sample_bar (i : nat) : BarElement :=
  {| datum :=
       {| value := Some (PNumber 3%Q); category := "A";
          color := Some "#01b8aa"; endColor := Some "#006e66";
          strokeColor := None; strokeWidth := 0%Q; selectionId := i |};
     fill_opacity := None;
     stroke_opacity := None |}.

(** The point built at index 2 when the value column has two entries. *)
Definition sample_point_C : BarChartDataPoint :=
  {| value := None; category := "C";
     color := Some "#f2c80f"; endColor := Some "#917809";
     strokeColor := None; strokeWidth := 0%Q; selectionId := 2 |}.

Definition sample_viewModel_long_categories : BarChartViewModel :=
  {| dataPoints := [sample_point_A; sample_point_B; sample_point_C];
     dataMax := Some (PNumber 10%Q);
     settings := sample_settings |}.

(** A category column but no value array. *)
Definition sample_dataView_no_values : DataView :=
  {| metadata := {| objects := None |};
     categorical := Some {| categories := Some [sample_category_AB]; values := None |} |}.

Definition sample_options_no_values : VisualUpdateOptions :=
  {| dataViews := Some [sample_dataView_no_values] |}.

(** A persisted axis fill that is a fill without a [solid] member. *)
Definition sample_dataView_bad_axis_fill : DataView :=
  {| metadata :=
       {| objects := Some {[ "enableAxis" := {[ "fill" := FillV {| solid := None |} ]} ]} |};
     categorical :=
       Some {| categories := Some [sample_category_AB]; values := Some [sample_values_37] |} |}.

Definition sample_options_bad_axis_fill : VisualUpdateOptions :=
  {| dataViews := Some [sample_dataView_bad_axis_fill] |}.

(** The surface after the gradients of the points A and B are created. *)
Definition sample_gradient (c e : string) : LinearGradient :=
  {| attr_id := gradientId c e;
     attr_x1 := "0%"; attr_y1 := "0%"; attr_x2 := "0%"; attr_y2 := "100%";
     stops := [ {| attr_offset := "0%"; attr_stop_color := c; attr_stop_opacity := 1%Q |};
                {| attr_offset := "100%"; attr_stop_color := e; attr_stop_opacity := 1%Q |} ] |}.

Definition sample_surface : list LinearGradient :=
  [ sample_gradient "#01b8aa" "#006e66"; sample_gradient "#fd625e" "#973a38" ].

End Samples.

(** * Properties *)

(** ** [shadeColor] *)

Section ShadeColor.
Local Open Scope Z_scope.

Lemma shadeColor_channels (color : string) (percent : Z) :
  shadeColor color percent =
  "#" +:+ shadeChannelText (substring_js 1 3 color) percent
      +:+ shadeChannelText (substring_js 3 5 color) percent
      +:+ shadeChannelText (substring_js 5 7 color) percent.
Proof. reflexivity. Qed.

Lemma isHexDigit_In (c : ascii) : isHexDigit c = true -> In c hexDigitChars.
Proof.
  destruct c as [b0 b1 b2 b3 b4 b5 b6 b7].
  destruct b0, b1, b2, b3, b4, b5, b6, b7; vm_compute; intros H;
    first [ discriminate H | repeat first [ left; reflexivity | right ] ].
Qed.

Lemma all_channels_ok :
  forallb (fun h => forallb (channel_ok h) hexDigitChars) hexDigitChars = true.
Proof. vm_compute. reflexivity. Qed.

Lemma channel_ok_hex (h l : ascii) :
  isHexDigit h = true -> isHexDigit l = true -> channel_ok h l = true.
Proof.
  intros Hh Hl.
  pose proof all_channels_ok as Hall.
  rewrite forallb_forall in Hall.
  specialize (Hall h (isHexDigit_In h Hh)).
  rewrite forallb_forall in Hall.
  exact (Hall l (isHexDigit_In l Hl)).
Qed.

(** The shape of a valid colour: a hash sign and six hex digits. *)
Lemma isHexColor_inv (s : string) :
  isHexColor s = true ->
  exists h1 h2 h3 h4 h5 h6,
    s = String "#" (String h1 (String h2 (String h3 (String h4 (String h5 (String h6 EmptyString))))))
    /\ isHexDigit h1 = true /\ isHexDigit h2 = true /\ isHexDigit h3 = true
    /\ isHexDigit h4 = true /\ isHexDigit h5 = true /\ isHexDigit h6 = true.
Proof.
  destruct s as [|c s]; [discriminate|].
  intros H.
  assert (Hc : c = "#"%char /\
               (String.length s =? 6)%nat && forallb isHexDigit (list_ascii_of_string s) = true).
  { destruct c as [b0 b1 b2 b3 b4 b5 b6 b7].
    destruct b0, b1, b2, b3, b4, b5, b6, b7; try discriminate H. split; [reflexivity | exact H]. }
  destruct Hc as [-> Hs].
  apply andb_true_iff in Hs as [Hlen Hdigits].
  destruct s as [|h1 [|h2 [|h3 [|h4 [|h5 [|h6 [|h7 s]]]]]]]; try discriminate Hlen.
  cbn in Hdigits.
  repeat (apply andb_true_iff in Hdigits as [? Hdigits]).
  exists h1, h2, h3, h4, h5, h6. repeat split; assumption.
Qed.

Lemma isHexColor_digits (a1 b1 a2 b2 a3 b3 : ascii) :
  isHexDigit a1 = true -> isHexDigit b1 = true ->
  isHexDigit a2 = true -> isHexDigit b2 = true ->
  isHexDigit a3 = true -> isHexDigit b3 = true ->
  isHexColor ("#" +:+ String a1 (String b1 EmptyString)
                  +:+ String a2 (String b2 EmptyString)
                  +:+ String a3 (String b3 EmptyString)) = true.
Proof.
  intros Ha1 Hb1 Ha2 Hb2 Ha3 Hb3.
  unfold String.append. cbn.
  rewrite Ha1, Hb1, Ha2, Hb2, Ha3, Hb3. reflexivity.
Qed.

(** On a valid colour every channel is shaded on its own, and the facts of
    [channel_ok] hold of each. *)
Lemma shadeColor_valid (color : string) :
  isHexColor color = true ->
  shadeColor color (-40) = assemble shade_channel_truncated color
  /\ forall k, (k < 3)%nat ->
       let t := shade_channel_truncated (channel color k) in
       t <= channel color k
       /\ isHexDigit (hexDigit (t / 16)) = true
       /\ isHexDigit (hexDigit (t mod 16)) = true
       /\ 16 * hexValue (hexDigit (t / 16)) + hexValue (hexDigit (t mod 16)) = t.
Proof.
  intros H.
  destruct (isHexColor_inv color H)
    as (h1 & h2 & h3 & h4 & h5 & h6 & -> & H1 & H2 & H3 & H4 & H5 & H6).
  pose proof (channel_ok_hex h1 h2 H1 H2) as K0.
  pose proof (channel_ok_hex h3 h4 H3 H4) as K1.
  pose proof (channel_ok_hex h5 h6 H5 H6) as K2.
  unfold channel_ok in K0, K1, K2.
  repeat match goal with
         | K : _ && _ = true |- _ => apply andb_true_iff in K as [K ?]
         end.
  repeat match goal with
         | K : String.eqb _ _ = true |- _ => apply String.eqb_eq in K
         | K : (_ <=? _) = true |- _ => apply Z.leb_le in K
         | K : (_ =? _) = true |- _ => apply Z.eqb_eq in K
         end.
  split.
  - rewrite shadeColor_channels. unfold assemble, substring_js. cbn [String.substring Nat.sub].
    change (channel _ 0) with (16 * hexValue h1 + hexValue h2).
    change (channel _ 1) with (16 * hexValue h3 + hexValue h4).
    change (channel _ 2) with (16 * hexValue h5 + hexValue h6).
    congruence.
  - intros k Hk.
    destruct k as [|[|[|k]]]; [| | | lia].
    + change (channel _ 0) with (16 * hexValue h1 + hexValue h2). cbv zeta. auto.
    + change (channel _ 1) with (16 * hexValue h3 + hexValue h4). cbv zeta. auto.
    + change (channel _ 2) with (16 * hexValue h5 + hexValue h6). cbv zeta. auto.
Qed.

(** C3, as amended: for every valid [#RRGGBB] colour, [shadeColor(color, -40)]
    is the hash sign followed by the three channels, each computed as
    [clamp(floor(channel * (100 - 40) / 100), 0, 255)] (the quotient is
    truncated by [parseInt], not rounded) and written as exactly two hex
    digits. *)
Theorem shadeColor_truncates (color : string) :
  isHexColor color = true ->
  shadeColor color (-40) =
  "#" +:+ hex2 (shade_channel_truncated (channel color 0))
      +:+ hex2 (shade_channel_truncated (channel color 1))
      +:+ hex2 (shade_channel_truncated (channel color 2))
  /\ String.length (shadeColor color (-40)) = 7%nat.
Proof.
  intros H.
  destruct (shadeColor_valid color H) as [E _].
  split; [exact E|].
  rewrite E. reflexivity.
Qed.

(** C9: for every valid hex colour [c], [shadeColor(c, -40)] is a function of
    [c] alone, every output channel is at most the corresponding input
    channel, and the output is again a well-formed [#RRGGBB] string: seven
    characters, a hash sign and six hex digits. *)
Theorem shadeColor_darkens (c : string) :
  isHexColor c = true ->
  (forall c', c' = c -> shadeColor c' (-40) = shadeColor c (-40))
  /\ (forall k, (k < 3)%nat -> channel (shadeColor c (-40)) k <= channel c k)
  /\ isHexColor (shadeColor c (-40)) = true
  /\ String.length (shadeColor c (-40)) = 7%nat.
Proof.
  intros H.
  destruct (shadeColor_valid c H) as [E F].
  pose proof (F 0%nat ltac:(lia)) as (L0 & A0 & B0 & V0).
  pose proof (F 1%nat ltac:(lia)) as (L1 & A1 & B1 & V1).
  pose proof (F 2%nat ltac:(lia)) as (L2 & A2 & B2 & V2).
  cbv zeta in *.
  split; [intros c' ->; reflexivity|].
  rewrite E. unfold assemble, hex2.
  split; [|split].
  - intros k Hk.
    destruct k as [|[|[|k]]]; [| | | lia].
    + etransitivity; [|exact L0]. apply Z.eq_le_incl. exact V0.
    + etransitivity; [|exact L1]. apply Z.eq_le_incl. exact V1.
    + etransitivity; [|exact L2]. apply Z.eq_le_incl. exact V2.
  - apply isHexColor_digits; assumption.
  - reflexivity.
Qed.

End ShadeColor.

(** C3, as stated, fails on [#010000]: [1 * 60 / 100 = 0.6] rounds to [1],
    and [shadeColor] yields [0]. *)
Lemma shadeColor_rounding_counterexample :
  isHexColor "#010000" = true
  /\ shadeColor "#010000" (-40) = "#000000"
  /\ assemble shade_channel_rounded "#010000" = "#010000"
  /\ shadeColor "#010000" (-40) <> assemble shade_channel_rounded "#010000".
Proof. repeat split; try reflexivity. vm_compute. discriminate. Qed.

Lemma shadeColor_truncates_witness :
  isHexColor "#ff8001" = true
  /\ shadeColor "#ff8001" (-40) = "#994c00"
  /\ String.length (shadeColor "#ff8001" (-40)) = 7%nat.
Proof.
  split; [reflexivity|].
  exact (shadeColor_truncates "#ff8001" eq_refl).
Defined.

Lemma shadeColor_darkens_witness :
  isHexColor "#01B8AA" = true
  /\ (forall c', c' = "#01B8AA"%string -> shadeColor c' (-40) = shadeColor "#01B8AA" (-40))
  /\ (forall k, (k < 3)%nat ->
        (channel (shadeColor "#01B8AA" (-40)) k <= channel "#01B8AA" k)%Z)
  /\ isHexColor (shadeColor "#01B8AA" (-40)) = true
  /\ String.length (shadeColor "#01B8AA" (-40)) = 7%nat.
Proof.
  split; [reflexivity|].
  exact (shadeColor_darkens "#01B8AA" eq_refl).
Defined.

(** ** The view-model transform *)

Section ViewModel.
Context `{api : PowerBIApi}.

Lemma bind_Return {A B : Type} (m : result A) (f : A -> result B) (b : B) :
  (x ← m; f x) = Return b -> exists a, m = Return a /\ f a = Return b.
Proof. destruct m as [a|e]; [eauto | discriminate]. Qed.

(** The loop pushes one element per index, in order, and stops at the first
    exception. *)
Lemma for_push_spec {A : Type} (body : nat -> result A) (n : nat) :
  forall (i : nat) (arr out : list A),
    for_push body n i arr = Return out ->
    length out = length arr + n
    /\ (forall k, k < length arr -> out !! k = arr !! k)
    /\ (forall k, k < n ->
          exists x, body (i + k) = Return x /\ out !! (length arr + k) = Some x).
Proof.
  induction n as [|n IH]; intros i arr out H; cbn [for_push] in H.
  - injection H as <-. split; [lia|]. split; [reflexivity | intros k Hk; lia].
  - apply bind_Return in H as (x & Hx & H).
    apply IH in H as (Hlen & Hpre & Hnew).
    rewrite length_app in Hlen, Hpre, Hnew. cbn [length] in Hlen, Hpre, Hnew.
    split; [lia|]. split.
    + intros k Hk. rewrite Hpre by lia. apply lookup_app_l. exact Hk.
    + intros [|k] Hk.
      * exists x. rewrite !Nat.add_0_r. split; [exact Hx|].
        rewrite Hpre by lia. rewrite lookup_app_r by lia.
        rewrite Nat.sub_diag. reflexivity.
      * destruct (Hnew k ltac:(lia)) as (y & Hy & Hout).
        exists y. split.
        -- rewrite <- Hy. f_equal. lia.
        -- rewrite <- Hout. f_equal. lia.
Qed.

Lemma for_push_returns {A : Type} (body : nat -> result A) (n : nat) :
  forall (i : nat) (arr : list A),
    (forall k, k < n -> exists x, body (i + k) = Return x) ->
    exists out, for_push body n i arr = Return out.
Proof.
  induction n as [|n IH]; intros i arr H; cbn [for_push].
  - eauto.
  - destruct (H 0 ltac:(lia)) as (x & Hx). rewrite Nat.add_0_r in Hx. rewrite Hx.
    apply IH. intros k Hk. destruct (H (S k) ltac:(lia)) as (y & Hy).
    exists y. rewrite <- Hy. f_equal. lia.
Qed.

(** A lookup yields either the default, whatever it is, or the persisted
    value, whatever the default. *)
Lemma getValue_cases (objects : option (gmap string (gmap string DataViewPropertyValue)))
    (objectName propertyName : string) :
  (forall d, getValue objects objectName propertyName d = d)
  \/ (exists v, forall d, getValue objects objectName propertyName d = v).
Proof.
  unfold getValue.
  destruct objects as [objs|]; [|left; reflexivity].
  destruct (objs !! objectName) as [o|]; [|left; reflexivity].
  destruct (o !! propertyName) as [v|]; [right; exists v; reflexivity | left; reflexivity].
Qed.

Lemma getCategoricalObjectValue_cases (category : DataViewCategoryColumn) (index : nat)
    (objectName propertyName : string) :
  (forall d, getCategoricalObjectValue category index objectName propertyName d = d)
  \/ (exists v, forall d, getCategoricalObjectValue category index objectName propertyName d = v).
Proof.
  unfold getCategoricalObjectValue.
  destruct (cat_objects category); [apply getValue_cases | left; reflexivity].
Qed.

Lemma getCategoricalObjectValue_no_objects (category : DataViewCategoryColumn) (index : nat)
    (objectName propertyName : string) (d : DataViewPropertyValue) :
  cat_objects category = None ->
  getCategoricalObjectValue category index objectName propertyName d = d.
Proof. unfold getCategoricalObjectValue. intros ->. reflexivity. Qed.

Lemma solid_color_returns (v : DataViewPropertyValue) :
  isSolidFill v = true -> exists c, solid_color v = Return c.
Proof.
  destruct v as [p|[[s|]]]; cbn; intros H; try discriminate H; eauto.
Qed.

Lemma getColumnColorByIndex_returns (category : DataViewCategoryColumn) (index : nat)
    (colorPalette : ISandboxExtendedColorPalette) (isEndColor : bool) :
  isSolidFill (getCategoricalObjectValue category index "colorSelector"
                 (if isEndColor then "endFill" else "fill") anySolidFill) = true ->
  exists c, getColumnColorByIndex category index colorPalette isEndColor = Return c.
Proof.
  intros H. unfold getColumnColorByIndex.
  destruct (isHighContrast colorPalette); [eauto|].
  apply solid_color_returns.
  destruct (getCategoricalObjectValue_cases category index "colorSelector"
              (if isEndColor then "endFill" else "fill")) as [Hd|[v Hv]].
  - rewrite Hd. reflexivity.
  - rewrite Hv in *. exact H.
Qed.

Lemma dataPointAt_returns (host : IVisualHost) (category : DataViewCategoryColumn)
    (dataValues : list PrimitiveValue) (strokeColor : option string) (strokeWidth : number)
    (i : nat) :
  isSolidFill (getCategoricalObjectValue category i "colorSelector" "fill" anySolidFill) = true ->
  isSolidFill (getCategoricalObjectValue category i "colorSelector" "endFill" anySolidFill) = true ->
  exists dp, dataPointAt host category dataValues strokeColor strokeWidth i = Return dp.
Proof.
  intros Hf He. unfold dataPointAt.
  destruct (getColumnColorByIndex_returns category i (colorPalette host) false Hf) as (c & ->).
  destruct (getColumnColorByIndex_returns category i (colorPalette host) true He) as (e & ->).
  eauto.
Qed.

Lemma dataPointAt_fields (host : IVisualHost) (cat : DataViewCategoryColumn)
    (dataValues : list PrimitiveValue) (sc : option string) (sw : number)
    (i : nat) (dp : BarChartDataPoint) :
  dataPointAt host cat dataValues sc sw i = Return dp ->
  value dp = dataValues !! i
  /\ category dp = template (cat_values cat !! i)
  /\ strokeColor dp = sc
  /\ strokeWidth dp = sw
  /\ selectionId dp = createSelectionId host cat i
  /\ getColumnColorByIndex cat i (colorPalette host) false = Return (color dp)
  /\ getColumnColorByIndex cat i (colorPalette host) true = Return (endColor dp).
Proof.
  unfold dataPointAt. intros H.
  apply bind_Return in H as (c & Hc & H).
  apply bind_Return in H as (e & He & H).
  injection H as <-. cbn. auto 10.
Qed.

Lemma chartColumns_inv (options : VisualUpdateOptions) (dataView : DataView)
    (category : DataViewCategoryColumn) (dataValue : DataViewValueColumn) :
  chartColumns options = Some (dataView, category, dataValue) ->
  exists rest c cats src vals,
    dataViews options = Some (dataView :: rest)
    /\ categorical dataView = Some c
    /\ categories c = Some (category :: cats)
    /\ cat_source category = Some src
    /\ values c = Some (dataValue :: vals).
Proof.
  unfold chartColumns. intros H.
  destruct (dataViews options) as [[|dv rest]|]; try discriminate H. cbn in H.
  destruct (categorical dv) as [c|] eqn:Hc; try discriminate H. cbn in H.
  destruct (categories c) as [[|cat cats]|] eqn:Hcats; try discriminate H. cbn in H.
  destruct (cat_source cat) as [src|] eqn:Hsrc; try discriminate H. cbn in H.
  destruct (values c) as [[|dval vals]|] eqn:Hvals; try discriminate H. cbn in H.
  injection H as <- <- <-.
  exists rest, c, cats, src, vals. auto.
Qed.

(** Past the guard, the transform is [transformColumns] on the first category
    column and the first value column. *)
Lemma visualTransform_columns (options : VisualUpdateOptions) (host : IVisualHost)
    (dataView : DataView) (category : DataViewCategoryColumn) (dataValue : DataViewValueColumn) :
  chartColumns options = Some (dataView, category, dataValue) ->
  visualTransform options host = transformColumns host dataView category (Some dataValue).
Proof.
  intros H.
  destruct (chartColumns_inv _ _ _ _ H) as (rest & c & cats & src & vals & Hd & Hc & Hcats & Hsrc & Hvals).
  unfold visualTransform, insufficientData.
  rewrite Hd. cbn [lookup list_lookup]. rewrite Hc, Hcats. cbn [lookup list_lookup prop mbind result_bind].
  rewrite Hsrc, Hvals. cbn [mbind result_bind option_bind lookup list_lookup prop id].
  rewrite Hc. cbn [mbind result_bind option_bind lookup list_lookup prop id].
  rewrite Hcats, Hvals. reflexivity.
Qed.

Lemma getAxisTextFillColor_returns (objs : option (gmap string (gmap string DataViewPropertyValue)))
    (pal : ISandboxExtendedColorPalette) (d : string) :
  isSolidFill (getValue objs "enableAxis" "fill" anySolidFill) = true ->
  exists c, getAxisTextFillColor objs pal d = Return c.
Proof.
  intros H. unfold getAxisTextFillColor.
  destruct (isHighContrast pal); [eauto|].
  apply solid_color_returns.
  destruct (getValue_cases objs "enableAxis" "fill") as [Hd|[v Hv]].
  - rewrite Hd. reflexivity.
  - rewrite Hv in *. exact H.
Qed.

(** What a view model returned by [transformColumns] consists of. *)
Lemma transformColumns_inv (host : IVisualHost) (dv : DataView)
    (cat : DataViewCategoryColumn) (dval : DataViewValueColumn) (vm : BarChartViewModel) :
  transformColumns host dv cat (Some dval) = Return vm ->
  let pal := colorPalette host in
  let objs := objects (metadata dv) in
  exists axisFill,
    getAxisTextFillColor objs pal defaultAxisFill = Return axisFill
    /\ settings vm =
       {| enableAxis := Some
            {| show := getValue objs "enableAxis" "show" (PrimV (PBool false));
               fill := axisFill |};
          generalView := Some
            {| opacity := getValue objs "generalView" "opacity" (PrimV (PNumber (number_lit 100)));
               showHelpLink := getValue objs "generalView" "showHelpLink" (PrimV (PBool false));
               helpLinkColor := getColumnStrokeColor pal |} |}
    /\ for_push (dataPointAt host cat (val_values dval) (getColumnStrokeColor pal)
                   (getColumnStrokeWidth (isHighContrast pal)))
         (Nat.max (length (cat_values cat)) (length (val_values dval))) 0 []
       = Return (dataPoints vm)
    /\ dataMax vm = val_maxLocal dval.
Proof.
  unfold transformColumns. intros H.
  apply bind_Return in H as (axisFill & Hfill & H).
  cbn [prop mbind result_bind] in H.
  apply bind_Return in H as (dps & Hdps & H).
  injection H as <-. cbn.
  exists axisFill. auto.
Qed.

Lemma transformColumns_returns (host : IVisualHost) (dv : DataView)
    (cat : DataViewCategoryColumn) (dval : DataViewValueColumn) :
  persistedFillsOk dv cat (Nat.max (length (cat_values cat)) (length (val_values dval))) = true ->
  exists vm, transformColumns host dv cat (Some dval) = Return vm.
Proof.
  unfold persistedFillsOk. intros H.
  apply andb_true_iff in H as [Haxis Hcats].
  rewrite forallb_forall in Hcats.
  unfold transformColumns.
  destruct (getAxisTextFillColor_returns (objects (metadata dv)) (colorPalette host)
              defaultAxisFill Haxis) as (axisFill & ->).
  cbn [prop mbind result_bind].
  edestruct (for_push_returns
               (dataPointAt host cat (val_values dval) (getColumnStrokeColor (colorPalette host))
                  (getColumnStrokeWidth (isHighContrast (colorPalette host))))
               (Nat.max (length (cat_values cat)) (length (val_values dval))) 0 [])
    as (dps & ->).
  - intros k Hk. cbn [Nat.add].
    specialize (Hcats k). rewrite in_seq in Hcats.
    specialize (Hcats ltac:(lia)). apply andb_true_iff in Hcats as [Hf He].
    apply dataPointAt_returns; assumption.
  - eauto.
Qed.

(** C5: for a category column of length [m] and a value column of length
    [n] (persisted colours, if any, being solid fills), the transform returns
    a view model with exactly [max m n] data points; the point at index [i]
    carries the value and the category found at [i], so an index beyond the
    value column gives an absent value and an index beyond the category
    column gives the coercion of an absent category, without a failure. *)
Theorem visualTransform_point_count (options : VisualUpdateOptions) (host : IVisualHost)
    (dv : DataView) (cat : DataViewCategoryColumn) (dval : DataViewValueColumn) :
  let m := length (cat_values cat) in
  let n := length (val_values dval) in
  chartColumns options = Some (dv, cat, dval) ->
  persistedFillsOk dv cat (Nat.max m n) = true ->
  exists vm,
    visualTransform options host = Return vm
    /\ length (dataPoints vm) = Nat.max m n
    /\ (forall i, i < Nat.max m n ->
          exists dp, dataPoints vm !! i = Some dp
            /\ value dp = val_values dval !! i
            /\ category dp = template (cat_values cat !! i)
            /\ (n <= i -> value dp = None)
            /\ (m <= i -> category dp = template None)).
Proof.
  intros m n Hcols Hok.
  rewrite (visualTransform_columns _ _ _ _ _ Hcols).
  destruct (transformColumns_returns host dv cat dval Hok) as (vm & Hvm).
  exists vm. split; [exact Hvm|].
  destruct (transformColumns_inv _ _ _ _ _ Hvm) as (axisFill & _ & _ & Hloop & _).
  apply for_push_spec in Hloop as (Hlen & _ & Hat).
  cbn [length Nat.add] in Hlen, Hat.
  split; [exact Hlen|].
  intros i Hi.
  destruct (Hat i Hi) as (dp & Hdp & Hlookup).
  exists dp. split; [exact Hlookup|].
  apply dataPointAt_fields in Hdp as (Hv & Hc & _).
  repeat split; try assumption.
  - intros Hn. rewrite Hv. apply lookup_ge_None. exact Hn.
  - intros Hm. rewrite Hc. f_equal. apply lookup_ge_None. exact Hm.
Qed.

(** Every data point of a returned view model is the one the loop body
    computes at its index. *)
Lemma transformColumns_points (host : IVisualHost) (dv : DataView)
    (cat : DataViewCategoryColumn) (dval : DataViewValueColumn) (vm : BarChartViewModel)
    (i : nat) (dp : BarChartDataPoint) :
  transformColumns host dv cat (Some dval) = Return vm ->
  dataPoints vm !! i = Some dp ->
  dataPointAt host cat (val_values dval) (getColumnStrokeColor (colorPalette host))
    (getColumnStrokeWidth (isHighContrast (colorPalette host))) i = Return dp.
Proof.
  intros Hvm Hdp.
  destruct (transformColumns_inv _ _ _ _ _ Hvm) as (axisFill & _ & _ & Hloop & _).
  apply for_push_spec in Hloop as (Hlen & _ & Hat).
  cbn [length Nat.add] in Hlen, Hat.
  pose proof (lookup_lt_Some _ _ _ Hdp) as Hi. rewrite Hlen in Hi.
  destruct (Hat i Hi) as (x & Hx & Hlookup).
  congruence.
Qed.

(** C10: the category of every data point is the template coercion of the raw
    category value at its index; at an index beyond the category column it is
    the literal string "undefined", and outside high-contrast mode that same
    string is the key with which the palette is asked for the point's colour
    (the colour found there is the default that a persisted per-category
    colour may override). *)
Theorem visualTransform_category_coerced (options : VisualUpdateOptions) (host : IVisualHost)
    (dv : DataView) (cat : DataViewCategoryColumn) (dval : DataViewValueColumn)
    (vm : BarChartViewModel) :
  chartColumns options = Some (dv, cat, dval) ->
  visualTransform options host = Return vm ->
  forall (i : nat) (dp : BarChartDataPoint),
    dataPoints vm !! i = Some dp ->
    category dp = template (cat_values cat !! i)
    /\ (length (cat_values cat) <= i ->
        let paletteColor := color_value (getColor (colorPalette host) "undefined") in
        category dp = "undefined"
        /\ (isHighContrast (colorPalette host) = false ->
            Return (color dp) =
              solid_color (getCategoricalObjectValue cat i "colorSelector" "fill"
                             (FillV {| solid := Some {| fill_color := Some paletteColor |} |}))
            /\ Return (endColor dp) =
              solid_color (getCategoricalObjectValue cat i "colorSelector" "endFill"
                             (FillV {| solid := Some {| fill_color :=
                                                          Some (shadeColor paletteColor (-40)) |} |}))
            /\ (cat_objects cat = None ->
                color dp = Some paletteColor
                /\ endColor dp = Some (shadeColor paletteColor (-40))))).
Proof.
  intros Hcols Hvm i dp Hdp.
  rewrite (visualTransform_columns _ _ _ _ _ Hcols) in Hvm.
  pose proof (transformColumns_points _ _ _ _ _ _ _ Hvm Hdp) as Hat.
  apply dataPointAt_fields in Hat as (_ & Hc & _ & _ & _ & Hcolor & Hend).
  split; [exact Hc|].
  intros Hm paletteColor.
  assert (Hundef : cat_values cat !! i = None) by (apply lookup_ge_None; exact Hm).
  split; [rewrite Hc, Hundef; reflexivity|].
  intros Hhc.
  unfold getColumnColorByIndex in Hcolor, Hend.
  rewrite Hhc, Hundef in Hcolor, Hend. cbn [template] in Hcolor, Hend.
  split; [symmetry; exact Hcolor|]. split; [symmetry; exact Hend|].
  intros Hnone.
  rewrite (getCategoricalObjectValue_no_objects _ _ _ _ _ Hnone) in Hcolor.
  rewrite (getCategoricalObjectValue_no_objects _ _ _ _ _ Hnone) in Hend.
  cbn [solid_color prop solid fill_color] in Hcolor, Hend.
  subst paletteColor. split; congruence.
Qed.

(** C8, as amended: for a raw result with a category source and a value
    column, no persisted object properties and high-contrast mode off, the
    transform returns settings with the axis hidden, axis fill black, opacity
    100 and the help link hidden; the help link colour is not the default
    blue but the column stroke colour, which is [null] outside high-contrast
    mode. *)
Theorem visualTransform_settings_without_objects (options : VisualUpdateOptions)
    (host : IVisualHost) (dv : DataView) (cat : DataViewCategoryColumn)
    (dval : DataViewValueColumn) :
  chartColumns options = Some (dv, cat, dval) ->
  objects (metadata dv) = None ->
  cat_objects cat = None ->
  isHighContrast (colorPalette host) = false ->
  exists vm,
    visualTransform options host = Return vm
    /\ settings vm =
       {| enableAxis := Some {| show := PrimV (PBool false); fill := Some "#000000" |};
          generalView := Some
            {| opacity := PrimV (PNumber (number_lit 100));
               showHelpLink := PrimV (PBool false);
               helpLinkColor := None |} |}.
Proof.
  intros Hcols Hobjs Hcat Hhc.
  rewrite (visualTransform_columns _ _ _ _ _ Hcols).
  destruct (transformColumns_returns host dv cat dval) as (vm & Hvm).
  { unfold persistedFillsOk. rewrite Hobjs. cbn [getValue anySolidFill isSolidFill solid].
    apply andb_true_iff. split; [reflexivity|].
    apply forallb_forall. intros i _.
    rewrite !(getCategoricalObjectValue_no_objects _ _ _ _ _ Hcat). reflexivity. }
  exists vm. split; [exact Hvm|].
  destruct (transformColumns_inv _ _ _ _ _ Hvm) as (axisFill & Hfill & Hsettings & _ & _).
  rewrite Hsettings. clear Hsettings.
  unfold getAxisTextFillColor, getColumnStrokeColor in *.
  rewrite Hhc, Hobjs in *. cbn in Hfill. injection Hfill as <-.
  reflexivity.
Qed.

(** Whenever the guard of lines 89-95 fires, the transform returns the view
    model built at lines 83-87, whose settings are the empty object. *)
Lemma visualTransform_insufficient (options : VisualUpdateOptions) (host : IVisualHost) :
  insufficientData (dataViews options) = Return true ->
  visualTransform options host =
  Return {| dataPoints := []; dataMax := Some (PNumber (number_lit 0));
            settings := emptySettings |}.
Proof. unfold visualTransform. intros ->. reflexivity. Qed.

(** C1: on an absent raw result the transform returns no data points and
    [dataMax = 0], but its settings are the empty object [{}] and not the
    default settings; [update] then fails on [settings.enableAxis.show]. *)
Theorem visualTransform_absent_settings_empty (host : IVisualHost) :
  visualTransform {| dataViews := None |} host =
    Return {| dataPoints := []; dataMax := Some (PNumber (number_lit 0));
              settings := emptySettings |}
  /\ emptySettings <> defaultSettings
  /\ update_enableAxis_show {| dataViews := None |} host =
     Throw (TypeError "settings.enableAxis.show").
Proof.
  split; [reflexivity|]. split; [discriminate | reflexivity].
Qed.

(** C2: a raw result whose [categories] array is present but empty makes the
    guard itself throw, and one whose [values] array is present but empty
    makes the transform throw past the guard. *)
Theorem visualTransform_throws_on_empty_arrays (host : IVisualHost)
    (md : DataViewMetadata) (rest : list DataView)
    (vals : option (list DataViewValueColumn))
    (src : DataViewMetadataColumn) (cvs : list PrimitiveValue)
    (cobjs : option (list (option (gmap string (gmap string DataViewPropertyValue)))))
    (cats : list DataViewCategoryColumn) :
  visualTransform
    {| dataViews := Some
         ({| metadata := md;
             categorical := Some {| categories := Some []; values := vals |} |} :: rest) |}
    host
  = Throw (TypeError "dataViews[0].categorical.categories[0].source")
  /\ returns
       (visualTransform
          {| dataViews := Some
               ({| metadata := md;
                   categorical := Some
                     {| categories := Some
                          ({| cat_source := Some src; cat_values := cvs; cat_objects := cobjs |}
                             :: cats);
                        values := Some [] |} |} :: rest) |}
          host)
     = false.
Proof.
  split; [reflexivity|].
  unfold visualTransform. cbn [insufficientData dataViews categorical categories values
    cat_source lookup list_lookup prop mbind result_bind option_bind id].
  unfold transformColumns.
  destruct (getAxisTextFillColor _ _ _); reflexivity.
Qed.

(** C7: in high-contrast mode, whatever the palette, the category and the
    index, the fill colour and the end colour are both the theme's
    background colour, the stroke width is 2 and the stroke colour is the
    theme's foreground colour. *)
Theorem highContrast_colors (colorPalette : ISandboxExtendedColorPalette)
    (cat : DataViewCategoryColumn) (index : nat) :
  isHighContrast colorPalette = true ->
  getColumnColorByIndex cat index colorPalette false
    = Return (Some (color_value (background colorPalette)))
  /\ getColumnColorByIndex cat index colorPalette true
    = Return (Some (color_value (background colorPalette)))
  /\ getColumnStrokeWidth (isHighContrast colorPalette) = number_lit 2
  /\ getColumnStrokeColor colorPalette = Some (color_value (foreground colorPalette)).
Proof.
  intros H. unfold getColumnColorByIndex, getColumnStrokeWidth, getColumnStrokeColor.
  rewrite H. auto.
Qed.

End ViewModel.

(** ** Gradient registration *)

Section Gradients.
Context `{api : PowerBIApi}.

Lemma select_id_app_l (svg more : list LinearGradient) (i : string) (g : LinearGradient) :
  select_id svg i = Some g -> select_id (svg ++ more) i = Some g.
Proof.
  unfold select_id. induction svg as [|x svg IH]; cbn; [discriminate|].
  destruct (String.eqb (attr_id x) i); auto.
Qed.

Lemma select_id_app_new (svg : list LinearGradient) (g : LinearGradient) :
  select_id svg (attr_id g) = None -> select_id (svg ++ [g]) (attr_id g) = Some g.
Proof.
  unfold select_id. induction svg as [|x svg IH]; cbn.
  - rewrite String.eqb_refl. reflexivity.
  - destruct (String.eqb (attr_id x) (attr_id g)); [discriminate | exact IH].
Qed.

Lemma select_id_found (svg : list LinearGradient) (i : string) (g : LinearGradient) :
  select_id svg i = Some g -> attr_id g = i.
Proof.
  unfold select_id. intros H. apply find_some in H as [_ H].
  apply String.eqb_eq. exact H.
Qed.

(** After [ensureGradient] the pair's gradient is on the surface. *)
Lemma ensureGradient_registered (svg : list LinearGradient) (a b : string) :
  exists g, select_id (ensureGradient svg a b) (gradientId a b) = Some g.
Proof.
  unfold ensureGradient.
  destruct (select_id svg (gradientId a b)) as [g|] eqn:Hsel.
  - exists g. exact Hsel.
  - eexists. apply (select_id_app_new svg {| attr_id := gradientId a b |}). exact Hsel.
Qed.

(** [ensureGradient] never removes or replaces a registration. *)
Lemma ensureGradient_keeps (svg : list LinearGradient) (a b i : string) (g : LinearGradient) :
  select_id svg i = Some g -> select_id (ensureGradient svg a b) i = Some g.
Proof.
  intros H. unfold ensureGradient.
  destruct (select_id svg (gradientId a b)); [exact H|].
  apply select_id_app_l. exact H.
Qed.

Lemma ensureGradient_idempotent (svg : list LinearGradient) (a b : string) :
  ensureGradient (ensureGradient svg a b) a b = ensureGradient svg a b.
Proof.
  destruct (ensureGradient_registered svg a b) as (g & Hg).
  unfold ensureGradient at 1. rewrite Hg. reflexivity.
Qed.

Lemma substr_js_tail (c : ascii) (s : string) : substr_js 1 (String c s) = s.
Proof.
  unfold substr_js. cbn [String.length Nat.sub String.substring].
  rewrite Nat.sub_0_r.
  induction s as [|x s IH]; cbn; [reflexivity | f_equal; exact IH].
Qed.

(** Swapping two different hex colours changes the gradient id. *)
Lemma gradientId_swap (a b : string) :
  isHexColor a = true -> isHexColor b = true -> a <> b ->
  gradientId a b <> gradientId b a.
Proof.
  intros Ha Hb Hne Heq.
  destruct (isHexColor_inv a Ha) as (a1 & a2 & a3 & a4 & a5 & a6 & -> & _).
  destruct (isHexColor_inv b Hb) as (b1 & b2 & b3 & b4 & b5 & b6 & -> & _).
  unfold gradientId in Heq. rewrite !substr_js_tail in Heq.
  unfold String.append in Heq. cbn in Heq.
  apply Hne. congruence.
Qed.


(** The [forEach] over the data points keeps what is registered and
    registers the pair of every data point it passes. *)
Lemma createGradients_registers (dps : list BarChartDataPoint) :
  forall (svg svg' : list LinearGradient),
    createGradients svg dps = Return svg' ->
    (forall i g, select_id svg i = Some g -> select_id svg' i = Some g)
    /\ Forall (fun dp => exists c e g,
                 color dp = Some c /\ endColor dp = Some e
                 /\ select_id svg' (gradientId c e) = Some g) dps.
Proof.
  induction dps as [|dp dps IH]; intros svg svg' H; cbn [createGradients] in H.
  - injection H as <-. split; [auto | constructor].
  - destruct (color dp) as [c|] eqn:Hc; [|discriminate H].
    destruct (endColor dp) as [e|] eqn:He; [|discriminate H].
    cbn [prop mbind result_bind id] in H.
    apply IH in H as [Hkeep Hall].
    split.
    + intros i g Hg. apply Hkeep. apply ensureGradient_keeps. exact Hg.
    + constructor; [|exact Hall].
      destruct (ensureGradient_registered svg c e) as (g & Hg).
      exists c, e, g. auto.
Qed.

Lemma createGradients_registered (dps : list BarChartDataPoint) (svg : list LinearGradient) :
  Forall (fun dp => exists c e g,
            color dp = Some c /\ endColor dp = Some e
            /\ select_id svg (gradientId c e) = Some g) dps ->
  createGradients svg dps = Return svg.
Proof.
  induction 1 as [|dp dps (c & e & g & Hc & He & Hg) _ IH]; cbn [createGradients].
  - reflexivity.
  - rewrite Hc, He. cbn [prop mbind result_bind id].
    unfold ensureGradient. rewrite Hg. exact IH.
Qed.

(** Rendering the same data points again leaves the surface as it is: no
    gradient is registered twice across update cycles. *)
Lemma createGradients_rerender (dps : list BarChartDataPoint)
    (svg svg' : list LinearGradient) :
  createGradients svg dps = Return svg' ->
  createGradients svg' dps = Return svg'.
Proof.
  intros H. apply createGradients_registered.
  apply (createGradients_registers dps svg svg' H).
Qed.

End Gradients.

(** ** Selection synchronisation *)

Section Selection.
Context `{api : PowerBIApi}.

Lemma syncSelectionState_empty (selection : list BarElement) :
  syncSelectionState (Some selection) (Some []) = Some (map (style_opacity None) selection).
Proof. reflexivity. Qed.

(** With a non-empty selection every bar whose id some selected id includes
    gets opacity 1, and every other bar gets 0.4. *)
Lemma syncSelectionState_selected (selection : list BarElement)
    (selectionIds : list ISelectionId) :
  selectionIds <> [] ->
  exists synced,
    syncSelectionState (Some selection) (Some selectionIds) = Some synced
    /\ length synced = length selection
    /\ forall i e, selection !! i = Some e ->
         exists e', synced !! i = Some e'
           /\ datum e' = datum e
           /\ fill_opacity e' = stroke_opacity e'
           /\ fill_opacity e' =
              Some (if existsb (fun s => includes s (selectionId (datum e))) selectionIds
                    then number_lit 1 else number_lit 0.4).
Proof.
  intros Hne. destruct selectionIds as [|s ids]; [contradiction|].
  cbn [syncSelectionState length Nat.eqb].
  eexists. split; [reflexivity|]. split; [apply length_map|].
  intros i e He. eexists. split.
  - rewrite list_lookup_fmap, He. reflexivity.
  - cbn. auto.
Qed.

(** C4: the resting opacity that [update] writes to every bar ([opacity =
    generalView.opacity / 100], lines 399-401) is an inline [fill-opacity] and
    [stroke-opacity]; synchronising with an empty selection removes exactly
    these properties, so no bar keeps the resting opacity. *)
Theorem syncSelectionState_empty_drops_resting_opacity (opacity : number)
    (bars : list BarElement) :
  exists synced,
    syncSelectionState (Some (applyRestingOpacity opacity bars)) (Some []) = Some synced
    /\ length synced = length bars
    /\ forall i e, synced !! i = Some e ->
         fill_opacity e = None /\ stroke_opacity e = None
         /\ exists e0, applyRestingOpacity opacity bars !! i = Some e0
              /\ fill_opacity e0 = Some opacity /\ stroke_opacity e0 = Some opacity.
Proof.
  rewrite syncSelectionState_empty. eexists. split; [reflexivity|].
  unfold applyRestingOpacity. split; [rewrite !length_map; reflexivity|].
  intros i e He.
  rewrite !list_lookup_fmap in He. rewrite list_lookup_fmap.
  destruct (bars !! i) as [b|]; [|discriminate He].
  cbn in He. injection He as <-. cbn.
  split; [reflexivity|]. split; [reflexivity|].
  eexists. split; [reflexivity|]. split; reflexivity.
Qed.

End Selection.

(** ** The properties on the sample inputs *)

Section SampleRuns.
#[local] Existing Instance sample_api.

(** The scenario of the specification: categories ["A","B"], values [3,7],
    reported maximum 10. *)
Example visualTransform_sample :
  visualTransform sample_options (sample_host false) = Return sample_viewModel.
Proof. reflexivity. Qed.

(** A bar at the resting opacity 0.5 has no inline opacity left after a
    synchronisation with the empty selection. *)
Example syncSelectionState_sample_resting_opacity :
  syncSelectionState (Some (applyRestingOpacity 0.5%Q [sample_bar 0])) (Some [])
  = Some [sample_bar 0]
  /\ fill_opacity (sample_bar 0) = None
  /\ applyRestingOpacity 0.5%Q [sample_bar 0]
     = [ {| datum := datum (sample_bar 0);
            fill_opacity := Some 0.5%Q; stroke_opacity := Some 0.5%Q |} ].
Proof. repeat split. Qed.

(** Selecting row 0 makes its bar solid and dims the bar of row 1. *)
Example syncSelectionState_sample_selected :
  syncSelectionState (Some [sample_bar 0; sample_bar 1]) (Some [0])
  = Some [ style_opacity (Some 1%Q) (sample_bar 0);
           style_opacity (Some 0.4%Q) (sample_bar 1) ].
Proof. reflexivity. Qed.

Lemma visualTransform_point_count_witness :
  chartColumns sample_options_long_categories
    = Some (sample_dataView_long_categories, sample_category_ABC, sample_values_37)
  /\ persistedFillsOk sample_dataView_long_categories sample_category_ABC 3 = true
  /\ exists vm,
       visualTransform sample_options_long_categories (sample_host false) = Return vm
       /\ length (dataPoints vm) = 3
       /\ (forall i, i < 3 ->
             exists dp, dataPoints vm !! i = Some dp
               /\ value dp = val_values sample_values_37 !! i
               /\ category dp = template (cat_values sample_category_ABC !! i)
               /\ (2 <= i -> value dp = None)
               /\ (3 <= i -> category dp = template None)).
Proof.
  split; [reflexivity|]. split; [reflexivity|].
  exact (visualTransform_point_count sample_options_long_categories (sample_host false)
           sample_dataView_long_categories sample_category_ABC sample_values_37
           eq_refl eq_refl).
Defined.

Lemma visualTransform_category_coerced_witness :
  chartColumns sample_options_short_categories
    = Some (sample_dataView_short_categories, sample_category_A, sample_values_37)
  /\ visualTransform sample_options_short_categories (sample_host false)
     = Return sample_viewModel_short_categories
  /\ dataPoints sample_viewModel_short_categories !! 1 = Some sample_point_undefined
  /\ length (cat_values sample_category_A) <= 1
  /\ isHighContrast (colorPalette (sample_host false)) = false
  /\ cat_objects sample_category_A = None
  /\ category sample_point_undefined = "undefined"
  /\ color sample_point_undefined
     = Some (color_value (getColor (colorPalette (sample_host false)) "undefined"))
  /\ endColor sample_point_undefined
     = Some (shadeColor (color_value (getColor (colorPalette (sample_host false)) "undefined"))
               (-40)).
Proof.
  pose proof (visualTransform_category_coerced sample_options_short_categories
                (sample_host false) sample_dataView_short_categories sample_category_A
                sample_values_37 sample_viewModel_short_categories eq_refl eq_refl
                1 sample_point_undefined eq_refl) as [_ H].
  specialize (H (le_n 1)). destruct H as [Hcat H].
  specialize (H eq_refl). destruct H as (_ & _ & H).
  specialize (H eq_refl). destruct H as [Hcolor Hend].
  do 6 (split; [reflexivity|]).
  split; [exact Hcat|]. split; [exact Hcolor | exact Hend].
Defined.

Lemma visualTransform_settings_without_objects_witness :
  chartColumns sample_options = Some (sample_dataView_AB, sample_category_AB, sample_values_37)
  /\ objects (metadata sample_dataView_AB) = None
  /\ cat_objects sample_category_AB = None
  /\ isHighContrast (colorPalette (sample_host false)) = false
  /\ exists vm,
       visualTransform sample_options (sample_host false) = Return vm
       /\ settings vm = sample_settings.
Proof.
  repeat (split; [reflexivity|]).
  exact (visualTransform_settings_without_objects sample_options (sample_host false)
           sample_dataView_AB sample_category_AB sample_values_37
           eq_refl eq_refl eq_refl eq_refl).
Defined.

(** C8, as stated, fails on the sample: nothing is persisted, high-contrast
    mode is off, and the help link colour of the resolved settings is [null],
    not the default ["#80B0E0"]. *)
Lemma visualTransform_default_settings_counterexample :
  objects (metadata sample_dataView_AB) = None
  /\ cat_objects sample_category_AB = None
  /\ isHighContrast (colorPalette (sample_host false)) = false
  /\ exists vm,
       visualTransform sample_options (sample_host false) = Return vm
       /\ (generalView (settings vm) ≫= helpLinkColor) = None
       /\ (generalView defaultSettings ≫= helpLinkColor) = Some "#80B0E0"
       /\ settings vm <> defaultSettings.
Proof.
  repeat (split; [reflexivity|]).
  exists sample_viewModel.
  repeat (split; [reflexivity|]).
  discriminate.
Qed.

Lemma highContrast_colors_witness :
  isHighContrast (sample_palette true) = true
  /\ getColumnColorByIndex sample_category_AB 1 (sample_palette true) false
     = Return (Some "#000000")
  /\ getColumnColorByIndex sample_category_AB 1 (sample_palette true) true
     = Return (Some "#000000")
  /\ getColumnStrokeWidth (isHighContrast (sample_palette true)) = 2%Q
  /\ getColumnStrokeColor (sample_palette true) = Some "#ffffff".
Proof.
  split; [reflexivity|].
  exact (highContrast_colors (sample_palette true) sample_category_AB 1 eq_refl).
Defined.


End SampleRuns.

(** * Further properties *)

(** ** [shadeColor] at other percentages and on short input *)

Section ShadeColorMore.
Local Open Scope Z_scope.

Lemma zrange_In (n : nat) (z : Z) : 0 <= z < Z.of_nat n -> In z (zrange n).
Proof.
  intros Hz. unfold zrange. apply in_map_iff.
  exists (Z.to_nat z). split; [lia|]. apply in_seq. lia.
Qed.

Lemma all_parse_ok :
  forallb (fun h => forallb (parse_ok h) hexDigitChars) hexDigitChars = true.
Proof. vm_compute. reflexivity. Qed.

Lemma all_hex_ok : forallb hex_ok (zrange 256) = true.
Proof. vm_compute. reflexivity. Qed.

(** The text of a quotient up to 510 parses back to the quotient, also when
    a decimal point and anything else follow it. *)
Lemma parse_quotient_text :
  Forall (fun q => parseInt (decimalText q) 0 = Some q
                   /\ forall rest, parseInt (decimalText q +:+ String "." rest) 0 = Some q)
    (zrange 511).
Proof.
  let l := eval vm_compute in (zrange 511) in change (zrange 511) with l.
  repeat (constructor; [split; [reflexivity | intros rest; reflexivity]|]).
  constructor.
Qed.

Lemma append_empty_r (s : string) : s +:+ EmptyString = s.
Proof.
  unfold String.append.
  induction s as [|c s IH]; cbn; [reflexivity | f_equal; exact IH].
Qed.

Lemma parse_hex_pair (h l : ascii) :
  isHexDigit h = true -> isHexDigit l = true ->
  parseInt (String h (String l EmptyString)) 16 = Some (16 * hexValue h + hexValue l)
  /\ 0 <= 16 * hexValue h + hexValue l <= 255.
Proof.
  intros Hh Hl.
  pose proof all_parse_ok as Hall.
  rewrite forallb_forall in Hall.
  specialize (Hall h (isHexDigit_In h Hh)).
  rewrite forallb_forall in Hall.
  specialize (Hall l (isHexDigit_In l Hl)).
  unfold parse_ok in Hall.
  destruct (parseInt (String h (String l EmptyString)) 16) as [v|]; [|discriminate Hall].
  apply andb_true_iff in Hall as [Hall Hhi]. apply andb_true_iff in Hall as [Hv Hlo].
  apply Z.eqb_eq in Hv. apply Z.leb_le in Hlo, Hhi. subst v. auto.
Qed.

(** [parseInt(`${n / 100}`)] truncates the quotient. *)
Lemma parse_scaled (n : Z) :
  0 <= n < 51100 -> parseInt (template_hundredths n) 0 = Some (n / 100).
Proof.
  intros Hn.
  pose proof parse_quotient_text as Hall.
  rewrite Forall_forall in Hall.
  destruct (Hall (n / 100)) as [Hplain Hpoint].
  { apply list_elem_of_In. apply zrange_In.
    split; [apply Z.div_pos; lia | apply Z.div_lt_upper_bound; lia]. }
  unfold template_hundredths.
  replace (n <? 0) with false by (symmetry; apply Z.ltb_ge; lia).
  rewrite Z.abs_eq by lia.
  change (DecimalString.NilZero.string_of_int (Z.to_int (n / 100)))
    with (decimalText (n / 100)).
  change (EmptyString +:+ ?s) with s.
  destruct (n mod 100 =? 0).
  - rewrite append_empty_r. exact Hplain.
  - destruct (n mod 100 mod 10 =? 0); apply Hpoint.
Qed.

Lemma hex_text (t : Z) :
  0 <= t <= 255 ->
  (if (String.length (toString16 (Some t)) =? 1)%nat
   then "0" +:+ toString16 (Some t) else toString16 (Some t)) = hex2 t
  /\ isHexDigit (hexDigit (t / 16)) = true
  /\ isHexDigit (hexDigit (t mod 16)) = true
  /\ 16 * hexValue (hexDigit (t / 16)) + hexValue (hexDigit (t mod 16)) = t.
Proof.
  intros Ht.
  pose proof all_hex_ok as Hall.
  rewrite forallb_forall in Hall.
  specialize (Hall t (zrange_In 256 t ltac:(lia))).
  unfold hex_ok in Hall. cbv zeta in Hall.
  repeat (apply andb_true_iff in Hall as [Hall ?]).
  apply String.eqb_eq in Hall.
  repeat match goal with K : (_ =? _) = true |- _ => apply Z.eqb_eq in K end.
  auto.
Qed.

(** One channel of a valid colour, shaded by a percentage from -100 to 100. *)
Lemma shadeChannelText_percent (p : Z) (h l : ascii) :
  -100 <= p <= 100 -> isHexDigit h = true -> isHexDigit l = true ->
  let t := shade_channel p (16 * hexValue h + hexValue l) in
  shadeChannelText (String h (String l EmptyString)) p = hex2 t
  /\ isHexDigit (hexDigit (t / 16)) = true
  /\ isHexDigit (hexDigit (t mod 16)) = true
  /\ 16 * hexValue (hexDigit (t / 16)) + hexValue (hexDigit (t mod 16)) = t.
Proof.
  intros Hp Hh Hl t.
  destruct (parse_hex_pair h l Hh Hl) as [Hparse Hv].
  set (v := 16 * hexValue h + hexValue l) in *.
  assert (Hn : 0 <= v * (100 + p) < 51100) by nia.
  assert (Hq : 0 <= v * (100 + p) / 100) by (apply Z.div_pos; lia).
  assert (Ht : 0 <= t <= 255) by (unfold t, shade_channel; lia).
  unfold shadeChannelText. rewrite Hparse.
  cbn [template_scaled]. rewrite (parse_scaled _ Hn).
  assert (Hclamp : (if js_lt (Some (v * (100 + p) / 100)) 255
                    then Some (v * (100 + p) / 100) else Some 255) = Some t).
  { unfold js_lt, t, shade_channel.
    destruct (v * (100 + p) / 100 <? 255) eqn:E.
    - apply Z.ltb_lt in E. f_equal. lia.
    - apply Z.ltb_ge in E. f_equal. lia. }
  rewrite Hclamp. exact (hex_text t Ht).
Qed.

(** X1: for every valid [#RRGGBB] colour and every percentage from -100 to
    100, [shadeColor] returns a well-formed [#RRGGBB] colour whose channels,
    read back, are the input channels scaled by [(100 + percent) / 100],
    truncated, and capped at 255. *)
Theorem shadeColor_percent (color : string) (p : Z) :
  isHexColor color = true ->
  -100 <= p <= 100 ->
  shadeColor color p = assemble (shade_channel p) color
  /\ isHexColor (shadeColor color p) = true
  /\ forall k, (k < 3)%nat ->
       channel (shadeColor color p) k = shade_channel p (channel color k).
Proof.
  intros H Hp.
  destruct (isHexColor_inv color H)
    as (h1 & h2 & h3 & h4 & h5 & h6 & -> & H1 & H2 & H3 & H4 & H5 & H6).
  destruct (shadeChannelText_percent p h1 h2 Hp H1 H2) as (T0 & A0 & B0 & V0).
  destruct (shadeChannelText_percent p h3 h4 Hp H3 H4) as (T1 & A1 & B1 & V1).
  destruct (shadeChannelText_percent p h5 h6 Hp H5 H6) as (T2 & A2 & B2 & V2).
  assert (E : shadeColor
                (String "#" (String h1 (String h2 (String h3 (String h4
                   (String h5 (String h6 EmptyString))))))) p
              = "#" +:+ hex2 (shade_channel p (16 * hexValue h1 + hexValue h2))
                    +:+ hex2 (shade_channel p (16 * hexValue h3 + hexValue h4))
                    +:+ hex2 (shade_channel p (16 * hexValue h5 + hexValue h6))).
  { rewrite shadeColor_channels. unfold substring_js. cbn [String.substring Nat.sub].
    rewrite T0, T1, T2. reflexivity. }
  split; [exact E|].
  rewrite E. unfold hex2.
  split; [apply isHexColor_digits; assumption|].
  intros k Hk.
  destruct k as [|[|[|k]]]; [| | | lia].
  - change (channel (String "#" (String h1 _)) 0) with (16 * hexValue h1 + hexValue h2).
    exact V0.
  - change (channel (String "#" (String h1 _)) 1) with (16 * hexValue h3 + hexValue h4).
    exact V1.
  - change (channel (String "#" (String h1 _)) 2) with (16 * hexValue h5 + hexValue h6).
    exact V2.
Qed.

(** X2: on a string too short to hold any channel (the empty string or a
    single character) [shadeColor] does not fail: every channel parses to
    [NaN], fails the test [R < 255], and the result is white whatever the
    percentage. *)
Theorem shadeColor_short_input (color : string) (percent : Z) :
  (String.length color <= 1)%nat ->
  shadeColor color percent = "#ffffff".
Proof.
  intros H.
  destruct color as [|c [|c' color]]; [reflexivity | reflexivity |].
  cbn [String.length] in H. lia.
Qed.

End ShadeColorMore.

(** ** More on the view-model transform *)

Section ViewModelMore.
Context `{api : PowerBIApi}.

Lemma solid_color_solid (v : DataViewPropertyValue) (c : option string) :
  solid_color v = Return c -> isSolidFill v = true.
Proof.
  destruct v as [p|[[s|]]]; cbn; intros H; try discriminate H. reflexivity.
Qed.

(** Whether a looked-up colour is usable does not depend on which usable
    default the lookup is given. *)
Lemma isSolidFill_getValue (objs : option (gmap string (gmap string DataViewPropertyValue)))
    (o p : string) (d1 d2 : DataViewPropertyValue) :
  isSolidFill d1 = true -> isSolidFill d2 = true ->
  isSolidFill (getValue objs o p d1) = isSolidFill (getValue objs o p d2).
Proof.
  intros H1 H2.
  destruct (getValue_cases objs o p) as [Hd|[v Hv]].
  - rewrite !Hd, H1, H2. reflexivity.
  - rewrite !Hv. reflexivity.
Qed.

Lemma isSolidFill_getCategoricalObjectValue (cat : DataViewCategoryColumn) (i : nat)
    (o p : string) (d1 d2 : DataViewPropertyValue) :
  isSolidFill d1 = true -> isSolidFill d2 = true ->
  isSolidFill (getCategoricalObjectValue cat i o p d1)
  = isSolidFill (getCategoricalObjectValue cat i o p d2).
Proof.
  intros H1 H2.
  destruct (getCategoricalObjectValue_cases cat i o p) as [Hd|[v Hv]].
  - rewrite !Hd, H1, H2. reflexivity.
  - rewrite !Hv. reflexivity.
Qed.

Lemma transformColumns_returns_when (host : IVisualHost) (dv : DataView)
    (cat : DataViewCategoryColumn) (dval : DataViewValueColumn) :
  (exists c, getAxisTextFillColor (objects (metadata dv)) (colorPalette host) defaultAxisFill
             = Return c) ->
  (forall i, i < Nat.max (length (cat_values cat)) (length (val_values dval)) ->
     exists dp, dataPointAt host cat (val_values dval) (getColumnStrokeColor (colorPalette host))
                  (getColumnStrokeWidth (isHighContrast (colorPalette host))) i = Return dp) ->
  exists vm, transformColumns host dv cat (Some dval) = Return vm.
Proof.
  intros (c & Hc) Hpoints. unfold transformColumns. rewrite Hc.
  cbn [prop mbind result_bind].
  edestruct (for_push_returns
               (dataPointAt host cat (val_values dval) (getColumnStrokeColor (colorPalette host))
                  (getColumnStrokeWidth (isHighContrast (colorPalette host))))
               (Nat.max (length (cat_values cat)) (length (val_values dval))) 0 [])
    as (dps & ->); [exact Hpoints | eauto].
Qed.

(** X3: whenever the raw result is absent, has no data view, no categorical
    part, no category array, no source on its first category column, or no
    value array, the transform does not throw and returns no data points,
    [dataMax = 0] and the empty settings object; these are the values [update]
    stores in its fields, and [update] then fails on
    [settings.enableAxis.show]. *)
Theorem visualTransform_without_data (options : VisualUpdateOptions) (host : IVisualHost) :
  dataViews options = None
  \/ dataViews options = Some []
  \/ (exists dv rest, dataViews options = Some (dv :: rest)
        /\ (categorical dv = None
            \/ exists c, categorical dv = Some c
                 /\ (categories c = None
                     \/ exists cat cats, categories c = Some (cat :: cats)
                          /\ (cat_source cat = None \/ values c = None)))) ->
  visualTransform options host
    = Return {| dataPoints := []; dataMax := Some (PNumber (number_lit 0));
                settings := emptySettings |}
  /\ update_assign options host
    = Return {| barChartSettings := Some emptySettings; barDataPoints := Some [] |}
  /\ update_enableAxis_show options host = Throw (TypeError "settings.enableAxis.show").
Proof.
  intros H.
  assert (Hguard : insufficientData (dataViews options) = Return true).
  { unfold insufficientData.
    destruct H as [-> | [-> | (dv & rest & -> & H)]]; [reflexivity | reflexivity |].
    cbn [lookup list_lookup].
    destruct H as [-> | (c & -> & H)]; [reflexivity|].
    destruct H as [-> | (cat & cats & -> & H)]; [reflexivity|].
    cbn [lookup list_lookup prop mbind result_bind].
    destruct H as [-> | ->]; [reflexivity|].
    destruct (cat_source cat); reflexivity. }
  unfold update_assign, update_enableAxis_show.
  rewrite (visualTransform_insufficient options host Hguard).
  split; [reflexivity|]. split; reflexivity.
Qed.

(** X4: on a raw result with a category source and a value column, the
    [dataMax] of the returned view model is the value column's reported
    [maxLocal] as it is (absent when that is absent, never recomputed from the
    values), every data point carries the one stroke colour and stroke width
    resolved from the palette, and the point at index [i] carries the
    selection id built from the category column at [i]. *)
Theorem visualTransform_shared_fields (options : VisualUpdateOptions) (host : IVisualHost)
    (dv : DataView) (cat : DataViewCategoryColumn) (dval : DataViewValueColumn)
    (vm : BarChartViewModel) :
  chartColumns options = Some (dv, cat, dval) ->
  visualTransform options host = Return vm ->
  dataMax vm = val_maxLocal dval
  /\ forall (i : nat) (dp : BarChartDataPoint),
       dataPoints vm !! i = Some dp ->
       strokeColor dp = getColumnStrokeColor (colorPalette host)
       /\ strokeWidth dp = getColumnStrokeWidth (isHighContrast (colorPalette host))
       /\ selectionId dp = createSelectionId host cat i.
Proof.
  intros Hcols Hvm.
  rewrite (visualTransform_columns _ _ _ _ _ Hcols) in Hvm.
  destruct (transformColumns_inv _ _ _ _ _ Hvm) as (axisFill & _ & _ & _ & Hmax).
  split; [exact Hmax|].
  intros i dp Hdp.
  pose proof (transformColumns_points _ _ _ _ _ _ _ Hvm Hdp) as Hat.
  apply dataPointAt_fields in Hat as (_ & _ & Hsc & Hsw & Hid & _).
  auto.
Qed.

(** X5: in high-contrast mode the transform returns on every raw result with
    a category source and a value column, whatever is persisted: no persisted
    colour is read, every point's colour and end colour are the theme
    background, its stroke is the theme foreground with width 2, and the axis
    fill and the help link colour of the settings are the theme foreground. *)
Theorem visualTransform_highContrast (options : VisualUpdateOptions) (host : IVisualHost)
    (dv : DataView) (cat : DataViewCategoryColumn) (dval : DataViewValueColumn) :
  chartColumns options = Some (dv, cat, dval) ->
  isHighContrast (colorPalette host) = true ->
  exists vm,
    visualTransform options host = Return vm
    /\ length (dataPoints vm)
       = Nat.max (length (cat_values cat)) (length (val_values dval))
    /\ (forall (i : nat) (dp : BarChartDataPoint),
          dataPoints vm !! i = Some dp ->
          color dp = Some (color_value (background (colorPalette host)))
          /\ endColor dp = Some (color_value (background (colorPalette host)))
          /\ strokeColor dp = Some (color_value (foreground (colorPalette host)))
          /\ strokeWidth dp = number_lit 2)
    /\ fill <$> enableAxis (settings vm)
       = Some (Some (color_value (foreground (colorPalette host))))
    /\ helpLinkColor <$> generalView (settings vm)
       = Some (Some (color_value (foreground (colorPalette host)))).
Proof.
  intros Hcols Hhc.
  rewrite (visualTransform_columns _ _ _ _ _ Hcols).
  destruct (transformColumns_returns_when host dv cat dval) as (vm & Hvm).
  { unfold getAxisTextFillColor. rewrite Hhc. eauto. }
  { intros i _. unfold dataPointAt, getColumnColorByIndex. rewrite Hhc.
    cbn [mbind result_bind]. eauto. }
  exists vm. split; [exact Hvm|].
  destruct (transformColumns_inv _ _ _ _ _ Hvm) as (axisFill & Hfill & Hsettings & Hloop & _).
  split.
  { apply for_push_spec in Hloop as (Hlen & _). exact Hlen. }
  split.
  { intros i dp Hdp.
    pose proof (transformColumns_points _ _ _ _ _ _ _ Hvm Hdp) as Hat.
    apply dataPointAt_fields in Hat as (_ & _ & Hsc & Hsw & _ & Hc & He).
    unfold getColumnColorByIndex, getColumnStrokeColor, getColumnStrokeWidth in *.
    rewrite Hhc in *.
    injection Hc as Hc. injection He as He. auto. }
  rewrite Hsettings.
  unfold getAxisTextFillColor, getColumnStrokeColor in *. rewrite Hhc in *.
  injection Hfill as <-. split; reflexivity.
Qed.

(** X6: outside high-contrast mode, on a raw result with a category source
    and a value column, the transform returns exactly when the persisted axis
    fill and the persisted colours of the categories, where there are any,
    are fills with a [solid] member; any other persisted colour makes it
    throw. *)
Theorem visualTransform_returns_iff (options : VisualUpdateOptions) (host : IVisualHost)
    (dv : DataView) (cat : DataViewCategoryColumn) (dval : DataViewValueColumn) :
  chartColumns options = Some (dv, cat, dval) ->
  isHighContrast (colorPalette host) = false ->
  returns (visualTransform options host)
  = persistedFillsOk dv cat (Nat.max (length (cat_values cat)) (length (val_values dval))).
Proof.
  intros Hcols Hhc.
  rewrite (visualTransform_columns _ _ _ _ _ Hcols).
  destruct (persistedFillsOk dv cat _) eqn:Hok.
  - destruct (transformColumns_returns host dv cat dval Hok) as (vm & ->). reflexivity.
  - destruct (transformColumns host dv cat (Some dval)) as [vm|e] eqn:Hvm; [|reflexivity].
    exfalso.
    destruct (transformColumns_inv _ _ _ _ _ Hvm) as (axisFill & Hfill & _ & Hloop & _).
    apply for_push_spec in Hloop as (_ & _ & Hat). cbn [Nat.add] in Hat.
    apply not_true_iff_false in Hok. apply Hok. clear Hok.
    unfold persistedFillsOk. apply andb_true_iff. split.
    + unfold getAxisTextFillColor in Hfill. rewrite Hhc in Hfill.
      apply solid_color_solid in Hfill.
      erewrite isSolidFill_getValue; [exact Hfill | reflexivity | reflexivity].
    + apply forallb_forall. intros i Hi. apply in_seq in Hi.
      destruct (Hat i ltac:(lia)) as (dp & Hdp & _).
      apply dataPointAt_fields in Hdp as (_ & _ & _ & _ & _ & Hc & He).
      unfold getColumnColorByIndex in Hc, He. rewrite Hhc in Hc, He.
      apply solid_color_solid in Hc. apply solid_color_solid in He.
      apply andb_true_iff. split.
      * erewrite isSolidFill_getCategoricalObjectValue; [exact Hc | reflexivity | reflexivity].
      * erewrite isSolidFill_getCategoricalObjectValue; [exact He | reflexivity | reflexivity].
Qed.

(** X7: outside high-contrast mode and without persisted per-category
    colours, when the palette hands out valid [#RRGGBB] colours every data
    point has a valid [#RRGGBB] colour and end colour, the end colour is the
    colour shaded by -40, and no channel of the end colour exceeds the
    colour's. *)
Theorem visualTransform_point_colors (options : VisualUpdateOptions) (host : IVisualHost)
    (dv : DataView) (cat : DataViewCategoryColumn) (dval : DataViewValueColumn)
    (vm : BarChartViewModel) :
  chartColumns options = Some (dv, cat, dval) ->
  isHighContrast (colorPalette host) = false ->
  cat_objects cat = None ->
  (forall key, isHexColor (color_value (getColor (colorPalette host) key)) = true) ->
  visualTransform options host = Return vm ->
  forall (i : nat) (dp : BarChartDataPoint),
    dataPoints vm !! i = Some dp ->
    exists c e,
      color dp = Some c /\ endColor dp = Some e
      /\ c = color_value (getColor (colorPalette host) (category dp))
      /\ e = shadeColor c (-40)
      /\ isHexColor c = true /\ isHexColor e = true
      /\ forall k, k < 3 -> (channel e k <= channel c k)%Z.
Proof.
  intros Hcols Hhc Hnone Hpal Hvm i dp Hdp.
  rewrite (visualTransform_columns _ _ _ _ _ Hcols) in Hvm.
  pose proof (transformColumns_points _ _ _ _ _ _ _ Hvm Hdp) as Hat.
  apply dataPointAt_fields in Hat as (_ & Hcat & _ & _ & _ & Hc & He).
  unfold getColumnColorByIndex in Hc, He. rewrite Hhc in Hc, He.
  rewrite (getCategoricalObjectValue_no_objects _ _ _ _ _ Hnone) in Hc.
  rewrite (getCategoricalObjectValue_no_objects _ _ _ _ _ Hnone) in He.
  cbn [solid_color prop solid fill_color] in Hc, He.
  injection Hc as Hc. injection He as He.
  rewrite <- Hcat in Hc, He.
  set (c := color_value (getColor (colorPalette host) (category dp))) in *.
  exists c, (shadeColor c (-40)).
  pose proof (Hpal (category dp)) as Hvalid. fold c in Hvalid.
  destruct (shadeColor_valid c Hvalid) as [E F].
  repeat split; auto.
  - rewrite E. unfold assemble, hex2.
    destruct (F 0 ltac:(lia)) as (_ & A0 & B0 & _).
    destruct (F 1 ltac:(lia)) as (_ & A1 & B1 & _).
    destruct (F 2 ltac:(lia)) as (_ & A2 & B2 & _).
    apply isHexColor_digits; assumption.
  - intros k Hk. rewrite E.
    destruct (F k Hk) as (L & _ & _ & V). cbv zeta in L, V.
    unfold assemble, hex2.
    destruct k as [|[|[|k]]]; [| | | lia];
      (etransitivity; [|exact L]); apply Z.eq_le_incl; exact V.
Qed.

End ViewModelMore.

(** ** More on gradient registration *)

Section GradientsMore.
Context `{api : PowerBIApi}.

Lemma append_assoc (s1 s2 s3 : string) : (s1 +:+ s2) +:+ s3 = s1 +:+ (s2 +:+ s3).
Proof.
  unfold String.append.
  induction s1 as [|c s1 IH]; cbn; [reflexivity | f_equal; exact IH].
Qed.

Lemma select_id_None (svg : list LinearGradient) (i : string) :
  select_id svg i = None -> i ∉ attr_id <$> svg.
Proof.
  unfold select_id. induction svg as [|g svg IH]; cbn; intros H.
  - apply not_elem_of_nil.
  - destruct (String.eqb (attr_id g) i) eqn:E; [discriminate H|].
    apply String.eqb_neq in E.
    apply not_elem_of_cons. split; [congruence | exact (IH H)].
Qed.

(** One pass of the loop body keeps the surface as a prefix, adds at most one
    gradient, and keeps the ids distinct. *)
Lemma ensureGradient_extends (svg : list LinearGradient) (a b : string) :
  exists new,
    ensureGradient svg a b = svg ++ new
    /\ length new <= 1
    /\ (NoDup (attr_id <$> svg) -> NoDup (attr_id <$> ensureGradient svg a b)).
Proof.
  unfold ensureGradient.
  destruct (select_id svg (gradientId a b)) eqn:Hsel.
  - exists []. rewrite app_nil_r. auto.
  - eexists. split; [reflexivity|]. split; [cbn; lia|].
    intros Hnd. rewrite fmap_app. apply NoDup_app.
    split; [exact Hnd|]. split; [|apply NoDup_singleton].
    intros x Hx Hin. cbn in Hin. apply list_elem_of_singleton in Hin. subst x.
    exact (select_id_None _ _ Hsel Hx).
Qed.




End GradientsMore.

(** ** More on selection synchronisation *)

Section SelectionMore.
Context `{api : PowerBIApi}.

Lemma style_opacity_twice (v w : option number) (e : BarElement) :
  style_opacity v (style_opacity w e) = style_opacity v e.
Proof. reflexivity. Qed.

(** X11: a synchronisation with a given array of selected ids supersedes the
    one before it: the opacities it leaves depend only on the bars' data and
    on its own selected ids, not on what an earlier synchronisation (or the
    render pass) had set; in particular synchronising twice with the same ids
    is the same as once. *)
Theorem syncSelectionState_supersedes (selection : option (list BarElement))
    (ids1 : option (list ISelectionId)) (ids2 : list ISelectionId) :
  syncSelectionState (syncSelectionState selection ids1) (Some ids2)
  = syncSelectionState selection (Some ids2).
Proof.
  destruct selection as [sel|]; [|destruct ids1; reflexivity].
  destruct ids1 as [ids1|]; [|reflexivity].
  destruct ids1 as [|s1 ids1], ids2 as [|s2 ids2];
    cbn [syncSelectionState length Nat.eqb];
    rewrite map_map; reflexivity.
Qed.

(** X12: with a non-empty selection the synchronisation keeps the bars and
    their data, and gives both opacities of a bar the value 1 when some
    selected id includes the bar's id, and 0.4 otherwise. *)
Theorem syncSelectionState_opacities (selection : list BarElement)
    (selectionIds : list ISelectionId) :
  selectionIds <> [] ->
  exists synced,
    syncSelectionState (Some selection) (Some selectionIds) = Some synced
    /\ datum <$> synced = datum <$> selection
    /\ forall i e', synced !! i = Some e' ->
         fill_opacity e' = stroke_opacity e'
         /\ ((exists s, s ∈ selectionIds /\ includes s (selectionId (datum e')) = true) ->
             fill_opacity e' = Some (number_lit 1))
         /\ ((forall s, s ∈ selectionIds -> includes s (selectionId (datum e')) = false) ->
             fill_opacity e' = Some (number_lit 0.4)).
Proof.
  intros Hne. destruct selectionIds as [|s0 ids]; [contradiction|].
  cbn [syncSelectionState length Nat.eqb].
  eexists. split; [reflexivity|]. split.
  { rewrite <- list_fmap_compose. reflexivity. }
  intros i e' He'. rewrite list_lookup_fmap in He'.
  destruct (selection !! i) as [e|]; [|discriminate He'].
  cbn [fmap option_fmap option_map] in He'. injection He' as <-.
  cbn [datum fill_opacity stroke_opacity style_opacity].
  split; [reflexivity|].
  unfold isSelectionIdInArray, solidOpacity, transparentOpacity.
  cbn [existsb].
  destruct (includes s0 (selectionId (datum e))
            || existsb (fun cur => includes cur (selectionId (datum e))) ids) eqn:E.
  - change (existsb (fun cur => includes cur (selectionId (datum e))) (s0 :: ids) = true) in E.
    split; [intros _; reflexivity|]. intros Hnone. exfalso.
    apply existsb_exists in E as (s & Hs & Hinc).
    rewrite (Hnone s) in Hinc; [discriminate Hinc|]. apply list_elem_of_In. exact Hs.
  - change (existsb (fun cur => includes cur (selectionId (datum e))) (s0 :: ids) = false) in E.
    split; [|intros _; reflexivity]. intros (s & Hs & Hinc). exfalso.
    assert (existsb (fun cur => includes cur (selectionId (datum e))) (s0 :: ids) = true) as E'.
    { apply existsb_exists. exists s. split; [apply list_elem_of_In; exact Hs | exact Hinc]. }
    congruence.
Qed.

End SelectionMore.

(** ** Tooltips, format pane and landing page *)

Section Surroundings.
Context `{api : PowerBIApi}.

(** X13: the tooltip of a data point of a returned view model fails with a
    [TypeError] when the point lies beyond the value column or its value is
    [null] (there is no [toString] to call); otherwise it is a single item
    whose name is the coerced category, whose text is the value's text and
    whose colour is the point's colour. *)
Theorem getTooltipData_of_point (options : VisualUpdateOptions) (host : IVisualHost)
    (dv : DataView) (cat : DataViewCategoryColumn) (dval : DataViewValueColumn)
    (vm : BarChartViewModel) (language : option string) (i : nat) (dp : BarChartDataPoint) :
  chartColumns options = Some (dv, cat, dval) ->
  visualTransform options host = Return vm ->
  dataPoints vm !! i = Some dp ->
  (length (val_values dval) <= i ->
     getTooltipData language dp = Throw (TypeError "value.value.toString"))
  /\ (val_values dval !! i = Some PNull ->
     getTooltipData language dp = Throw (TypeError "value.value.toString"))
  /\ (forall p, val_values dval !! i = Some p -> p <> PNull ->
     exists item,
       getTooltipData language dp = Return [item]
       /\ tooltip_displayName item = template (cat_values cat !! i)
       /\ tooltip_value item = template (Some p)
       /\ tooltip_color item = color dp).
Proof.
  intros Hcols Hvm Hdp.
  rewrite (visualTransform_columns _ _ _ _ _ Hcols) in Hvm.
  pose proof (transformColumns_points _ _ _ _ _ _ _ Hvm Hdp) as Hat.
  apply dataPointAt_fields in Hat as (Hv & Hc & _).
  unfold getTooltipData. rewrite Hv, Hc.
  split; [|split].
  - intros Hn. rewrite (lookup_ge_None_2 _ _ Hn). reflexivity.
  - intros ->. reflexivity.
  - intros p -> Hp. destruct p; try contradiction; cbn; eexists; eauto.
Qed.

(** X14: after an update on a raw result with a category source and a value
    column (persisted colours, if any, being solid fills), the colour section
    of the format pane has one row per data point, in order: [max m n] rows,
    the row at index [i] named by the coerced category at [i], selected by the
    selector of the selection id built at [i], and carrying the point's colour
    and end colour as solid fills. *)
Theorem enumerateObjectInstances_colorSelector (options : VisualUpdateOptions)
    (host : IVisualHost) (dv : DataView) (cat : DataViewCategoryColumn)
    (dval : DataViewValueColumn) :
  let len := Nat.max (length (cat_values cat)) (length (val_values dval)) in
  chartColumns options = Some (dv, cat, dval) ->
  persistedFillsOk dv cat len = true ->
  exists this rows,
    update_assign options host = Return this
    /\ enumerateObjectInstances this "colorSelector" = Return rows
    /\ length rows = len
    /\ forall i, i < len ->
         exists row dp,
           rows !! i = Some row
           /\ (barDataPoints this ≫= (.!! i)) = Some dp
           /\ inst_objectName row = "colorSelector"
           /\ inst_displayName row = Some (template (cat_values cat !! i))
           /\ inst_selector row = Some (getSelector (createSelectionId host cat i))
           /\ inst_properties row
              = [ ("fill", IVSolid (color dp)); ("endFill", IVSolid (endColor dp)) ].
Proof.
  intros len Hcols Hok.
  destruct (transformColumns_returns host dv cat dval Hok) as (vm & Hvm).
  unfold update_assign. rewrite (visualTransform_columns _ _ _ _ _ Hcols), Hvm.
  cbn [mbind result_bind].
  eexists. eexists. split; [reflexivity|].
  cbn [enumerateObjectInstances String.eqb Ascii.eqb Bool.eqb barDataPoints prop mbind result_bind id].
  split; [reflexivity|].
  destruct (transformColumns_inv _ _ _ _ _ Hvm) as (axisFill & _ & _ & Hloop & _).
  apply for_push_spec in Hloop as (Hlen & _ & Hat). cbn [length Nat.add] in Hlen, Hat.
  split; [rewrite length_map; exact Hlen|].
  intros i Hi.
  destruct (Hat i Hi) as (dp & Hdp & Hlookup).
  apply dataPointAt_fields in Hdp as (_ & Hc & _ & _ & Hid & _).
  eexists. exists dp.
  split; [rewrite list_lookup_fmap, Hlookup; reflexivity|].
  split; [exact Hlookup|].
  cbn. rewrite Hc, Hid. auto.
Qed.

(** X15: after an update on a raw result for which the guard of
    [visualTransform] fires, the stored settings are the empty object: the
    format pane's axis and general sections fail with a [TypeError], the
    colour section is empty, and any other section name gives an empty
    enumeration. *)
Theorem enumerateObjectInstances_without_data (options : VisualUpdateOptions)
    (host : IVisualHost) :
  insufficientData (dataViews options) = Return true ->
  exists this,
    update_assign options host = Return this
    /\ enumerateObjectInstances this "enableAxis"
       = Throw (TypeError "this.barChartSettings.enableAxis.show")
    /\ enumerateObjectInstances this "generalView"
       = Throw (TypeError "this.barChartSettings.generalView.opacity")
    /\ enumerateObjectInstances this "colorSelector" = Return []
    /\ forall objectName,
         objectName <> "enableAxis"%string -> objectName <> "colorSelector"%string ->
         objectName <> "generalView"%string ->
         enumerateObjectInstances this objectName = Return [].
Proof.
  intros H. unfold update_assign.
  rewrite (visualTransform_insufficient options host H). cbn [mbind result_bind].
  eexists. split; [reflexivity|].
  split; [reflexivity|]. split; [reflexivity|]. split; [reflexivity|].
  intros name H1 H2 H3. unfold enumerateObjectInstances.
  apply String.eqb_neq in H1, H2, H3. rewrite H1, H2, H3. reflexivity.
Qed.

(** The three states the landing page can be in. *)
Lemma HandleLandingPage_invariant (options : VisualUpdateOptions) (st : LandingPageState) :
  (st = initialLandingPageState
   \/ st = {| isLandingPageOn := true; LandingPageRemoved := false; landingPages := 1 |}
   \/ st = {| isLandingPageOn := true; LandingPageRemoved := true; landingPages := 0 |}) ->
  (HandleLandingPage options st = initialLandingPageState
   \/ HandleLandingPage options st
      = {| isLandingPageOn := true; LandingPageRemoved := false; landingPages := 1 |}
   \/ HandleLandingPage options st
      = {| isLandingPageOn := true; LandingPageRemoved := true; landingPages := 0 |}).
Proof.
  unfold HandleLandingPage, initialLandingPageState.
  intros [-> | [-> | ->]];
    destruct (match dataViews options with
              | Some dataViews => (length dataViews =? 0)%nat
              | None => true
              end); cbn; auto.
Qed.

Lemma handleLandingPages_removed (updates : list VisualUpdateOptions) (st : LandingPageState) :
  isLandingPageOn st = true -> LandingPageRemoved st = true ->
  handleLandingPages updates st = st.
Proof.
  unfold handleLandingPages.
  induction updates as [|options updates IH]; intros Hon Hrem; cbn [fold_left]; [reflexivity|].
  assert (Hstep : HandleLandingPage options st = st).
  { unfold HandleLandingPage. rewrite Hon, Hrem.
    destruct (match dataViews options with
              | Some dataViews => (length dataViews =? 0)%nat
              | None => true
              end); reflexivity. }
  rewrite Hstep. apply IH; assumption.
Qed.

(** X16: over any sequence of updates starting from a new visual, at most one
    landing page is attached; one is attached exactly when the page has been
    switched on and not removed; and once it has been removed no later update
    changes the state, so it is never shown again. *)
Theorem handleLandingPages_invariant (updates : list VisualUpdateOptions) :
  let st := handleLandingPages updates initialLandingPageState in
  landingPages st <= 1
  /\ (landingPages st = 1 <-> isLandingPageOn st = true /\ LandingPageRemoved st = false)
  /\ (LandingPageRemoved st = true ->
      landingPages st = 0
      /\ forall more, handleLandingPages more st = st).
Proof.
  intros st.
  assert (Inv : st = initialLandingPageState
                \/ st = {| isLandingPageOn := true; LandingPageRemoved := false;
                           landingPages := 1 |}
                \/ st = {| isLandingPageOn := true; LandingPageRemoved := true;
                           landingPages := 0 |}).
  { subst st. unfold handleLandingPages.
    assert (G : forall s,
               (s = initialLandingPageState
                \/ s = {| isLandingPageOn := true; LandingPageRemoved := false;
                          landingPages := 1 |}
                \/ s = {| isLandingPageOn := true; LandingPageRemoved := true;
                          landingPages := 0 |}) ->
               let r := fold_left (fun st options => HandleLandingPage options st) updates s in
               r = initialLandingPageState
               \/ r = {| isLandingPageOn := true; LandingPageRemoved := false;
                         landingPages := 1 |}
               \/ r = {| isLandingPageOn := true; LandingPageRemoved := true;
                         landingPages := 0 |}).
    { induction updates as [|options updates IH]; intros s Hs; cbn [fold_left]; [exact Hs|].
      apply IH. apply HandleLandingPage_invariant. exact Hs. }
    apply G. left. reflexivity. }
  clearbody st.
  destruct Inv as [-> | [-> | ->]]; cbn.
  - split; [lia|]. split; [split; [discriminate | intros [? _]; discriminate]|]. discriminate.
  - split; [lia|]. split; [split; auto|]. discriminate.
  - split; [lia|]. split; [split; [discriminate | intros [_ ?]; discriminate]|].
    intros _. split; [reflexivity|].
    intros more. apply handleLandingPages_removed; reflexivity.
Qed.

End Surroundings.

(** ** The further properties on the sample inputs *)

Section SampleRunsMore.
#[local] Existing Instance sample_api.

Lemma shadeColor_percent_witness :
  isHexColor "#ff8001" = true
  /\ (-100 <= 40 <= 100)%Z
  /\ shadeColor "#ff8001" 40 = "#ffb301"
  /\ isHexColor (shadeColor "#ff8001" 40) = true
  /\ forall k, k < 3 ->
       channel (shadeColor "#ff8001" 40) k = shade_channel 40 (channel "#ff8001" k).
Proof.
  split; [reflexivity|]. split; [lia|].
  exact (shadeColor_percent "#ff8001" 40 eq_refl ltac:(lia)).
Defined.

Lemma shadeColor_short_input_witness :
  String.length "#" <= 1 /\ shadeColor "#" (-40) = "#ffffff".
Proof.
  split; [cbn; lia|].
  apply (shadeColor_short_input "#" (-40)). cbn. lia.
Defined.

Lemma visualTransform_without_data_witness :
  categorical sample_dataView_no_values
    = Some {| categories := Some [sample_category_AB]; values := None |}
  /\ visualTransform sample_options_no_values (sample_host false)
     = Return {| dataPoints := []; dataMax := Some (PNumber 0%Q); settings := emptySettings |}
  /\ update_assign sample_options_no_values (sample_host false)
     = Return {| barChartSettings := Some emptySettings; barDataPoints := Some [] |}
  /\ update_enableAxis_show sample_options_no_values (sample_host false)
     = Throw (TypeError "settings.enableAxis.show").
Proof.
  split; [reflexivity|].
  apply (visualTransform_without_data sample_options_no_values (sample_host false)).
  right. right. exists sample_dataView_no_values, []. split; [reflexivity|].
  right. eexists. split; [reflexivity|].
  right. exists sample_category_AB, []. split; [reflexivity|].
  right. reflexivity.
Defined.

Lemma visualTransform_shared_fields_witness :
  chartColumns sample_options = Some (sample_dataView_AB, sample_category_AB, sample_values_37)
  /\ visualTransform sample_options (sample_host false) = Return sample_viewModel
  /\ dataMax sample_viewModel = val_maxLocal sample_values_37
  /\ forall (i : nat) (dp : BarChartDataPoint),
       dataPoints sample_viewModel !! i = Some dp ->
       strokeColor dp = None /\ strokeWidth dp = 0%Q /\ selectionId dp = i.
Proof.
  split; [reflexivity|]. split; [reflexivity|].
  exact (visualTransform_shared_fields sample_options (sample_host false)
           sample_dataView_AB sample_category_AB sample_values_37 sample_viewModel
           eq_refl eq_refl).
Defined.

Lemma visualTransform_highContrast_witness :
  chartColumns sample_options = Some (sample_dataView_AB, sample_category_AB, sample_values_37)
  /\ isHighContrast (colorPalette (sample_host true)) = true
  /\ exists vm,
       visualTransform sample_options (sample_host true) = Return vm
       /\ length (dataPoints vm) = 2
       /\ (forall (i : nat) (dp : BarChartDataPoint),
             dataPoints vm !! i = Some dp ->
             color dp = Some "#000000" /\ endColor dp = Some "#000000"
             /\ strokeColor dp = Some "#ffffff" /\ strokeWidth dp = 2%Q)
       /\ fill <$> enableAxis (settings vm) = Some (Some "#ffffff")
       /\ helpLinkColor <$> generalView (settings vm) = Some (Some "#ffffff").
Proof.
  split; [reflexivity|]. split; [reflexivity|].
  exact (visualTransform_highContrast sample_options (sample_host true)
           sample_dataView_AB sample_category_AB sample_values_37 eq_refl eq_refl).
Defined.

Lemma visualTransform_returns_iff_witness :
  chartColumns sample_options_bad_axis_fill
    = Some (sample_dataView_bad_axis_fill, sample_category_AB, sample_values_37)
  /\ isHighContrast (colorPalette (sample_host false)) = false
  /\ persistedFillsOk sample_dataView_bad_axis_fill sample_category_AB 2 = false
  /\ returns (visualTransform sample_options_bad_axis_fill (sample_host false))
     = persistedFillsOk sample_dataView_bad_axis_fill sample_category_AB 2.
Proof.
  split; [reflexivity|]. split; [reflexivity|]. split; [vm_compute; reflexivity|].
  exact (visualTransform_returns_iff sample_options_bad_axis_fill (sample_host false)
           sample_dataView_bad_axis_fill sample_category_AB sample_values_37 eq_refl eq_refl).
Defined.

Lemma sample_palette_hex (key : string) :
  isHexColor (color_value (getColor (sample_palette false) key)) = true.
Proof.
  cbn [sample_palette getColor color_value].
  destruct (String.eqb key "A"); [reflexivity|].
  destruct (String.eqb key "B"); [reflexivity|].
  destruct (String.eqb key "undefined"); reflexivity.
Qed.

Lemma visualTransform_point_colors_witness :
  chartColumns sample_options = Some (sample_dataView_AB, sample_category_AB, sample_values_37)
  /\ isHighContrast (colorPalette (sample_host false)) = false
  /\ cat_objects sample_category_AB = None
  /\ visualTransform sample_options (sample_host false) = Return sample_viewModel
  /\ dataPoints sample_viewModel !! 1 = Some sample_point_B
  /\ exists c e,
       color sample_point_B = Some c /\ endColor sample_point_B = Some e
       /\ c = color_value (getColor (colorPalette (sample_host false)) (category sample_point_B))
       /\ e = shadeColor c (-40)
       /\ isHexColor c = true /\ isHexColor e = true
       /\ forall k, k < 3 -> (channel e k <= channel c k)%Z.
Proof.
  do 5 (split; [reflexivity|]).
  exact (visualTransform_point_colors sample_options (sample_host false)
           sample_dataView_AB sample_category_AB sample_values_37 sample_viewModel
           eq_refl eq_refl eq_refl sample_palette_hex eq_refl 1 sample_point_B eq_refl).
Defined.



Lemma syncSelectionState_opacities_witness :
  [1] <> ([] : list nat)
  /\ exists synced,
       syncSelectionState (Some [sample_bar 0; sample_bar 1]) (Some [1]) = Some synced
       /\ datum <$> synced = datum <$> [sample_bar 0; sample_bar 1]
       /\ forall i e', synced !! i = Some e' ->
            fill_opacity e' = stroke_opacity e'
            /\ ((exists s, s ∈ [1] /\ includes s (selectionId (datum e')) = true) ->
                fill_opacity e' = Some 1%Q)
            /\ ((forall s, s ∈ [1] -> includes s (selectionId (datum e')) = false) ->
                fill_opacity e' = Some 0.4%Q).
Proof.
  assert (Hne : [1] <> ([] : list nat)) by discriminate.
  split; [exact Hne|].
  exact (syncSelectionState_opacities [sample_bar 0; sample_bar 1] [1] Hne).
Defined.

Lemma getTooltipData_of_point_witness :
  chartColumns sample_options_long_categories
    = Some (sample_dataView_long_categories, sample_category_ABC, sample_values_37)
  /\ visualTransform sample_options_long_categories (sample_host false)
     = Return sample_viewModel_long_categories
  /\ dataPoints sample_viewModel_long_categories !! 2 = Some sample_point_C
  /\ length (val_values sample_values_37) <= 2
  /\ getTooltipData (Some "en-US") sample_point_C = Throw (TypeError "value.value.toString").
Proof.
  do 3 (split; [reflexivity|]). split; [cbn; lia|].
  destruct (getTooltipData_of_point sample_options_long_categories (sample_host false)
              sample_dataView_long_categories sample_category_ABC sample_values_37
              sample_viewModel_long_categories (Some "en-US") 2 sample_point_C
              eq_refl eq_refl eq_refl) as [H _].
  apply H. cbn. lia.
Defined.

Lemma enumerateObjectInstances_colorSelector_witness :
  chartColumns sample_options = Some (sample_dataView_AB, sample_category_AB, sample_values_37)
  /\ persistedFillsOk sample_dataView_AB sample_category_AB 2 = true
  /\ exists this rows,
       update_assign sample_options (sample_host false) = Return this
       /\ enumerateObjectInstances this "colorSelector" = Return rows
       /\ length rows = 2
       /\ forall i, i < 2 ->
            exists row dp,
              rows !! i = Some row
              /\ (barDataPoints this ≫= (.!! i)) = Some dp
              /\ inst_objectName row = "colorSelector"
              /\ inst_displayName row = Some (template (cat_values sample_category_AB !! i))
              /\ inst_selector row = Some (getSelector i)
              /\ inst_properties row
                 = [ ("fill", IVSolid (color dp)); ("endFill", IVSolid (endColor dp)) ].
Proof.
  split; [reflexivity|]. split; [reflexivity|].
  exact (enumerateObjectInstances_colorSelector sample_options (sample_host false)
           sample_dataView_AB sample_category_AB sample_values_37 eq_refl eq_refl).
Defined.

Lemma enumerateObjectInstances_without_data_witness :
  insufficientData (dataViews sample_options_no_values) = Return true
  /\ exists this,
       update_assign sample_options_no_values (sample_host false) = Return this
       /\ enumerateObjectInstances this "enableAxis"
          = Throw (TypeError "this.barChartSettings.enableAxis.show")
       /\ enumerateObjectInstances this "generalView"
          = Throw (TypeError "this.barChartSettings.generalView.opacity")
       /\ enumerateObjectInstances this "colorSelector" = Return []
       /\ forall objectName,
            objectName <> "enableAxis"%string -> objectName <> "colorSelector"%string ->
            objectName <> "generalView"%string ->
            enumerateObjectInstances this objectName = Return [].
Proof.
  split; [reflexivity|].
  exact (enumerateObjectInstances_without_data sample_options_no_values (sample_host false)
           eq_refl).
Defined.

End SampleRunsMore.
